(** * Tax-info server: lookup, persistence and spreadsheet sync

    A shallow embedding of the request-handling core of the Express server
    (the storage functions, [appendTaxInfoToSheet], [formatAddress],
    [tryVietQRApi], [lookupCompanyByTaxCode] and the route handlers), with
    the properties the specification states about it.

    JavaScript strings are sequences of UTF-16 code units; regular
    expressions are embedded as syntax trees and run by derivatives; the
    outside world (environment variables, the file system, the remote
    services, the clock) is an explicit oracle, and every effect the code
    performs is recorded in a trace. *)

From Stdlib Require Import String Ascii DecimalString.
From Stdlib Require Import List NArith Arith Bool Lia.
From Equations Require Import Equations.
Import ListNotations.

Set Implicit Arguments.

(* ===================================================================== *)
(** ** JavaScript strings *)
(* ===================================================================== *)

Module Js.

Definition codeunit := N.
Definition jsstring := list codeunit.

(** Source literals are written as Rocq strings (UTF-8 bytes) and decoded
    to the UTF-16 code units the JavaScript engine holds. *)
Fixpoint decode_utf8 (bs : list N) : jsstring :=
  match bs with
  | [] => []
  | b0 :: r0 =>
      if b0 <? 128 then b0 :: decode_utf8 r0
      else if b0 <? 224 then
        match r0 with
        | b1 :: r1 =>
            N.lor (N.shiftl (N.land b0 31) 6) (N.land b1 63) :: decode_utf8 r1
        | _ => []
        end
      else if b0 <? 240 then
        match r0 with
        | b1 :: b2 :: r2 =>
            N.lor (N.shiftl (N.land b0 15) 12)
                  (N.lor (N.shiftl (N.land b1 63) 6) (N.land b2 63))
              :: decode_utf8 r2
        | _ => []
        end
      else
        match r0 with
        | b1 :: b2 :: b3 :: r3 =>
            let cp := N.lor (N.shiftl (N.land b0 7) 18)
                        (N.lor (N.shiftl (N.land b1 63) 12)
                           (N.lor (N.shiftl (N.land b2 63) 6) (N.land b3 63))) in
            let v := cp - 65536 in
            (55296 + N.shiftr v 10) :: (56320 + N.land v 1023) :: decode_utf8 r3
        | _ => []
        end
  end%N.

Definition utf16 (s : string) : jsstring :=
  decode_utf8 (map N_of_ascii (list_ascii_of_string s)).
Arguments utf16 : simpl never.

(** [String(n)] for a non-negative integer. *)
Definition ofN (n : N) : jsstring :=
  utf16 (NilEmpty.string_of_uint (N.to_uint n)).

Definition eqb (a b : jsstring) : bool :=
  if list_eq_dec N.eq_dec a b then true else false.

(** A string is falsy exactly when it is empty. *)
Definition truthy (s : jsstring) : bool :=
  match s with [] => false | _ => true end.

(** A property that is absent ([undefined]) is falsy as well. *)
Definition truthy_opt (o : option jsstring) : bool :=
  match o with Some s => truthy s | None => false end.

(** [o || dflt] *)
Definition or_else (o : option jsstring) (dflt : jsstring) : jsstring :=
  match o with
  | Some s => if truthy s then s else dflt
  | None => dflt
  end.

(** WhiteSpace and LineTerminator code units: what [\s] matches and what
    [trim] removes. *)
Definition isWhiteSpace (c : codeunit) : bool :=
  (((9 <=? c) && (c <=? 13)) || (c =? 32) || (c =? 160) || (c =? 5760)
   || ((8192 <=? c) && (c <=? 8202)) || (c =? 8232) || (c =? 8233)
   || (c =? 8239) || (c =? 8287) || (c =? 12288) || (c =? 65279))%N.

Definition isDigit (c : codeunit) : bool := ((48 <=? c) && (c <=? 57))%N.

Fixpoint dropWhile (p : codeunit -> bool) (s : jsstring) : jsstring :=
  match s with
  | [] => []
  | c :: r => if p c then dropWhile p r else s
  end.

Definition trimStart (s : jsstring) : jsstring := dropWhile isWhiteSpace s.
Definition trimEnd (s : jsstring) : jsstring := rev (dropWhile isWhiteSpace (rev s)).
Definition trim (s : jsstring) : jsstring := trimEnd (trimStart s).

Fixpoint startsWith (p s : jsstring) : bool :=
  match p, s with
  | [], _ => true
  | a :: p', b :: s' => (a =? b)%N && startsWith p' s'
  | _ :: _, [] => false
  end.

Definition endsWith (p s : jsstring) : bool := startsWith (rev p) (rev s).

(** [s.includes(p)] *)
Fixpoint includes (p s : jsstring) : bool :=
  startsWith p s || match s with [] => false | _ :: r => includes p r end.

(** [s.replace(/lit/g, rep)] for a non-empty literal [lit]: occurrences are
    found left to right and do not overlap; [skip] counts the code units
    of the occurrence just replaced that are still to be passed over. *)
Fixpoint replaceAll_from (lit rep s : jsstring) (skip : nat) : jsstring :=
  match s with
  | [] => []
  | c :: r =>
      match skip with
      | S k => replaceAll_from lit rep r k
      | O =>
          if startsWith lit s
          then rep ++ replaceAll_from lit rep r (length lit - 1)
          else c :: replaceAll_from lit rep r 0
      end
  end.

Definition replaceAll (lit rep s : jsstring) : jsstring :=
  replaceAll_from lit rep s 0.

(** [s.replace(/^lit/, rep)] *)
Definition replacePrefix (lit rep s : jsstring) : jsstring :=
  if startsWith lit s then rep ++ skipn (length lit) s else s.

(** [s.replace(/\s+/g, '')] *)
Definition removeWhiteSpace (s : jsstring) : jsstring :=
  filter (fun c => negb (isWhiteSpace c)) s.

End Js.

Import Js.

(* ===================================================================== *)
(** ** Regular expressions *)
(* ===================================================================== *)

Module Regex.

(** The fragment the server uses: literals and classes (a test on one
    code unit), sequence, alternation and repetition. *)
Inductive regex : Type :=
| Void : regex
| Eps : regex
| Chr : (codeunit -> bool) -> regex
| Cat : regex -> regex -> regex
| Alt : regex -> regex -> regex
| Star : regex -> regex.

(** [r+], [r{n}], [r{0,k}], [r{m,n}] and [r{m,}] *)
Definition Plus (r : regex) : regex := Cat r (Star r).

Fixpoint Times (n : nat) (r : regex) : regex :=
  match n with O => Eps | S k => Cat r (Times k r) end.

Fixpoint UpTo (k : nat) (r : regex) : regex :=
  match k with O => Eps | S j => Alt Eps (Cat r (UpTo j r)) end.

Definition Between (m n : nat) (r : regex) : regex :=
  Cat (Times m r) (UpTo (n - m) r).

Definition AtLeast (m : nat) (r : regex) : regex := Cat (Times m r) (Star r).

Fixpoint Seq (rs : list regex) : regex :=
  match rs with [] => Eps | r :: rs' => Cat r (Seq rs') end.

(** A literal code unit. *)
Definition lit (p : codeunit) : codeunit -> bool := fun c => (c =? p)%N.

(** The other-case form of a pattern character. Only the letters that the
    patterns of this program contain are needed: ASCII letters, and the
    pair U+1EC6 / U+1EC7. Under the [i] flag (without [u]) a code unit
    above 127 never folds to an ASCII one, so these are exactly the code
    units the pattern character matches. *)
Definition otherCase (p : codeunit) : codeunit :=
  (if (65 <=? p) && (p <=? 90) then p + 32
   else if (97 <=? p) && (p <=? 122) then p - 32
   else if p =? 7878 then 7879
   else if p =? 7879 then 7878
   else p)%N.

Definition litI (p : codeunit) : codeunit -> bool :=
  fun c => ((c =? p) || (c =? otherCase p))%N.

(** A literal string, and a literal string under the [i] flag. *)
Definition Str (s : jsstring) : regex := Seq (map (fun p => Chr (lit p)) s).
Definition StrI (s : jsstring) : regex := Seq (map (fun p => Chr (litI p)) s).

Definition anyChar : codeunit -> bool := fun _ => true.

(** *** Matching by derivatives *)

Fixpoint nullable (r : regex) : bool :=
  match r with
  | Void => false
  | Eps => true
  | Chr _ => false
  | Cat r1 r2 => nullable r1 && nullable r2
  | Alt r1 r2 => nullable r1 || nullable r2
  | Star _ => true
  end.

Fixpoint deriv (c : codeunit) (r : regex) : regex :=
  match r with
  | Void => Void
  | Eps => Void
  | Chr p => if p c then Eps else Void
  | Cat r1 r2 =>
      if nullable r1
      then Alt (Cat (deriv c r1) r2) (deriv c r2)
      else Cat (deriv c r1) r2
  | Alt r1 r2 => Alt (deriv c r1) (deriv c r2)
  | Star r1 => Cat (deriv c r1) (Star r1)
  end.

Fixpoint matches (r : regex) (s : jsstring) : bool :=
  match s with
  | [] => nullable r
  | c :: s' => matches (deriv c r) s'
  end.

(** [/^r$/.test(s)]: the whole string is in the language of [r]. *)
Definition test_anchored (r : regex) (s : jsstring) : bool := matches r s.

(** [/r$/.test(s)]: some suffix of the string is in the language of [r]. *)
Definition test_suffix (r : regex) (s : jsstring) : bool :=
  matches (Cat (Star (Chr anyChar)) r) s.

(** *** The language of a regular expression *)

Inductive lang : regex -> jsstring -> Prop :=
| lang_eps : lang Eps []
| lang_chr p c : p c = true -> lang (Chr p) [c]
| lang_cat r1 r2 s1 s2 : lang r1 s1 -> lang r2 s2 -> lang (Cat r1 r2) (s1 ++ s2)
| lang_alt_l r1 r2 s : lang r1 s -> lang (Alt r1 r2) s
| lang_alt_r r1 r2 s : lang r2 s -> lang (Alt r1 r2) s
| lang_star_nil r : lang (Star r) []
| lang_star_app r s1 s2 : lang r s1 -> lang (Star r) s2 -> lang (Star r) (s1 ++ s2).

End Regex.

Import Regex.

(* ===================================================================== *)
(** ** The server *)
(* ===================================================================== *)

Module Server.

(** *** Errors, remote responses and the data model *)

(** A thrown [Error] object: its [name] and its [message]. *)
Record JsError : Type := mkError { name : jsstring; message : jsstring }.

Definition Error (msg : jsstring) : JsError :=
  {| name := utf16 "Error"; message := msg |}.

Inductive Result (A : Type) : Type :=
| Ok : A -> Result A
| Throw : JsError -> Result A.
Arguments Ok {A} _.
Arguments Throw {A} _.

(** What [fetch] resolves to: the status line and the body, the body
    already read as the JSON shape the caller looks for. *)
Record Response (B : Type) : Type :=
  mkResponse { status : N; statusText : jsstring; body : B }.

(** [response.ok] *)
Definition ok {B} (r : Response B) : bool :=
  ((200 <=? status r) && (status r <=? 299))%N.

(** [fetch] either resolves to a response or rejects (an [AbortError]
    when the timeout signal fires, a [TypeError] such as [fetch failed]
    for a network failure). *)
Inductive FetchOutcome (B : Type) : Type :=
| Responded : Response B -> FetchOutcome B
| Rejected : JsError -> FetchOutcome B.
Arguments Rejected {B} _.

(** The body of the webhook's answer: text that [JSON.parse] refuses (or
    parses to a value without properties), or an object with its
    [success] flag (by truthiness) and its [message]. *)
Inductive WebhookBody : Type :=
| NotJson : WebhookBody
| JsonBody : bool -> option jsstring -> WebhookBody.

(** The shape of the custom lookup API's answer and of the entries of
    [MOCK_TAX_DATA]. *)
Record TaxApiData : Type := mkTaxApiData {
  MaSoThue : option jsstring;
  Title : option jsstring;
  TitleEn : option jsstring;
  TitleEnAscii : option jsstring;
  DiaChiCongTy : option jsstring
}.

(** The public registry's answer: [{code, desc, data: {id, name,
    internationalName, shortName, address}}]. *)
Record VietQRData : Type := mkVietQRData {
  vq_id : option jsstring;
  vq_name : option jsstring;
  vq_internationalName : option jsstring;
  vq_shortName : option jsstring;
  vq_address : option jsstring
}.

Record VietQRBody : Type := mkVietQRBody {
  vq_code : option jsstring;
  vq_desc : option jsstring;
  vq_data : option VietQRData
}.

(** The persisted submission. *)
Record TaxInfo : Type := mkTaxInfo {
  taxCode : jsstring;
  companyName : jsstring;
  address : jsstring;
  email : jsstring;
  phone : jsstring;
  invoiceNumber : jsstring;
  createdAt : jsstring;
  updatedAt : jsstring
}.

(** The JSON object posted to the spreadsheet webhook. *)
Record SheetRow : Type := mkSheetRow {
  row_invoiceNumber : jsstring;
  row_taxCode : jsstring;
  row_companyName : jsstring;
  row_address : jsstring;
  row_email : jsstring;
  row_phone : jsstring
}.

Record SyncOutcome : Type := mkSync { sync_success : bool; sync_message : jsstring }.

Record CompanyLookupResult : Type := mkCompany {
  c_taxCode : jsstring;
  c_companyName : jsstring;
  c_companyNameEn : jsstring;
  c_shortName : jsstring;
  c_address : jsstring
}.

(** [{success: true, data}] or [{success: false, message}] *)
Inductive LookupResult : Type :=
| Found : CompanyLookupResult -> LookupResult
| NotFound : jsstring -> LookupResult.

(** *** The outside world *)

Record World : Type := mkWorld {
  env_VERCEL : option jsstring;
  env_GOOGLE_APPS_SCRIPT_URL : option jsstring;
  env_TAX_LOOKUP_API_URL : option jsstring;
  (** [new Date().toISOString()] *)
  now : jsstring;
  (** the webhook's answer to the n-th POST of a request (from 0) *)
  webhook : nat -> SheetRow -> FetchOutcome WebhookBody;
  (** the lookup services, by URL; [None] as a body is text that is not
      JSON, or JSON without properties *)
  customApi : jsstring -> FetchOutcome (option TaxApiData);
  vietqr : jsstring -> FetchOutcome (option VietQRBody);
  (** the error [fs.writeFileSync] throws, if it does *)
  fs_write_error : option JsError;
  (** the error [fs.existsSync] or [fs.readFileSync] throws, if one does *)
  fs_read_error : option JsError;
  (** whether the 15-second timer of the lookup route fires first *)
  lookup_exceeds_15s : bool
}.

(** The text in [TAX_INFO_FILE]: the JSON of a record, or anything else. *)
Inductive FileContent : Type :=
| JsonOf : TaxInfo -> FileContent
| Garbled : FileContent.

Inductive Event : Type :=
| Post : jsstring -> SheetRow -> Event
| Get : jsstring -> Event
| Sleep : N -> Event
| WriteFile : TaxInfo -> Event.

Record State : Type := mkState { file : option FileContent; trace : list Event }.

Definition log (e : Event) (st : State) : State :=
  {| file := file st; trace := trace st ++ [e] |}.

Definition isPost (e : Event) : bool :=
  match e with Post _ _ => true | _ => false end.

(** The number of POSTs made so far. *)
Definition posts (st : State) : nat := List.length (filter isPost (trace st)).

(** *** Computations: state and exceptions *)

Definition M (A : Type) : Type := State -> Result A * State.

Definition ret {A} (a : A) : M A := fun st => (Ok a, st).

Definition throw {A} (e : JsError) : M A := fun st => (Throw e, st).

Definition bind {A B} (m : M A) (k : A -> M B) : M B :=
  fun st =>
    match m st with
    | (Ok a, st') => k a st'
    | (Throw e, st') => (Throw e, st')
    end.

(** [try { m } catch (e) { h e }] *)
Definition try_catch {A} (m : M A) (h : JsError -> M A) : M A :=
  fun st =>
    match m st with
    | (Ok a, st') => (Ok a, st')
    | (Throw e, st') => h e st'
    end.

Notation "x <- m ;; k" := (bind m (fun x => k))
  (at level 61, m at next level, right associativity).
Notation "m ;; k" := (bind m (fun _ => k))
  (at level 61, right associativity).

(** [await new Promise(resolve => setTimeout(resolve, ms))] *)
Definition sleep (ms : N) : M unit := fun st => (Ok tt, log (Sleep ms) st).

(** [fetch(url, {method: 'POST', body: JSON.stringify(row), ...})] followed
    by reading the body. *)
Definition fetch_post (w : World) (url : jsstring) (row : SheetRow)
  : M (Response WebhookBody) :=
  fun st =>
    match webhook w (posts st) row with
    | Responded r => (Ok r, log (Post url row) st)
    | Rejected e => (Throw e, log (Post url row) st)
    end.

Definition fetch_get {B} (service : jsstring -> FetchOutcome B) (url : jsstring)
  : M (Response B) :=
  fun st =>
    match service url with
    | Responded r => (Ok r, log (Get url) st)
    | Rejected e => (Throw e, log (Get url) st)
    end.

(** [fs.writeFileSync(TAX_INFO_FILE, JSON.stringify(taxInfo, null, 2))] *)
Definition fs_writeFileSync (w : World) (taxInfo : TaxInfo) : M unit :=
  fun st =>
    match fs_write_error w with
    | Some e => (Throw e, st)
    | None => (Ok tt, {| file := Some (JsonOf taxInfo);
                         trace := trace st ++ [WriteFile taxInfo] |})
    end.

(** [fs.existsSync(TAX_INFO_FILE)] and [fs.readFileSync(TAX_INFO_FILE)] *)
Definition fs_existsSync (w : World) : M bool :=
  fun st =>
    match fs_read_error w with
    | Some e => (Throw e, st)
    | None => (Ok (match file st with Some _ => true | None => false end), st)
    end.

Definition fs_readFileSync (w : World) : M FileContent :=
  fun st =>
    match fs_read_error w, file st with
    | Some e, _ => (Throw e, st)
    | None, Some c => (Ok c, st)
    | None, None => (Throw (Error (utf16 "ENOENT: no such file or directory")), st)
    end.

(** [JSON.parse(data)] on the file's text *)
Definition JSON_parse_file (c : FileContent) : M TaxInfo :=
  match c with
  | JsonOf t => ret t
  | Garbled => throw {| name := utf16 "SyntaxError";
                        message := utf16 "Unexpected token in JSON" |}
  end.

(** *** Configuration *)

(** [process.env.GOOGLE_APPS_SCRIPT_URL || ''] *)
Definition GOOGLE_APPS_SCRIPT_URL (w : World) : jsstring :=
  or_else (env_GOOGLE_APPS_SCRIPT_URL w) [].

(** *** Tax info storage functions *)

Definition readTaxInfo (w : World) : M (option TaxInfo) :=
  try_catch
    (if truthy_opt (env_VERCEL w) then ret None
     else
       exists_ <- fs_existsSync w ;;
       if (exists_ : bool) then
         data <- fs_readFileSync w ;;
         t <- JSON_parse_file data ;;
         ret (Some t)
       else ret None)
    (fun error => ret None).

Definition writeTaxInfo (w : World) (taxInfo : TaxInfo) : M bool :=
  try_catch
    (if truthy_opt (env_VERCEL w) then ret true
     else
       fs_writeFileSync w taxInfo ;;
       ret true)
    (fun error => ret true).

(** *** Spreadsheet sync *)

Definition MAX_RETRIES : nat := 2.

(** The JSON body of the POST; on a string, [x || ''] is [x]. *)
Definition sheetRow (taxInfo : TaxInfo) : SheetRow :=
  {| row_invoiceNumber := invoiceNumber taxInfo;
     row_taxCode := taxCode taxInfo;
     row_companyName := companyName taxInfo;
     row_address := address taxInfo;
     row_email := email taxInfo;
     row_phone := phone taxInfo |}.

(** A text between double quotes. *)
Definition quoted (s : jsstring) : jsstring := [34%N] ++ s ++ [34%N].

(** The message for a response that is not [ok] and is not retried. *)
Definition errorMessage (status : N) (statusText : jsstring) : jsstring :=
  if (status =? 401)%N then
    utf16 "Apps Script authorization error. Check if " ++ quoted (utf16 "Who has access")
      ++ utf16 " is set to " ++ quoted (utf16 "Anyone")
  else if (status =? 403)%N then
    utf16 "Permission denied. Check if the Google Sheet allows editing"
  else if (status =? 404)%N then
    utf16 "Apps Script URL not found. Check GOOGLE_APPS_SCRIPT_URL"
  else utf16 "HTTP " ++ ofN status ++ utf16 ": " ++ statusText.

(** [1000 * (retryCount + 1)] *)
Definition backoff (retryCount : nat) : N := (1000 * N.of_nat (retryCount + 1))%N.

Equations? appendTaxInfoToSheet (w : World) (taxInfo : TaxInfo) (retryCount : nat)
  (st : State) : Result SyncOutcome * State by wf (MAX_RETRIES - retryCount) lt :=
appendTaxInfoToSheet w taxInfo retryCount st :=
  try_catch
    (if negb (truthy (GOOGLE_APPS_SCRIPT_URL w)) then
       ret {| sync_success := false;
              sync_message := utf16 "Google Sheets not configured" |}
     else
       try_catch
         (response <- fetch_post w (GOOGLE_APPS_SCRIPT_URL w) (sheetRow taxInfo) ;;
          if ok response then
            match body response with
            | JsonBody true _ =>
                ret {| sync_success := true;
                       sync_message := utf16 "Data saved to Google Sheets" |}
            | JsonBody false result_message =>
                match lt_dec retryCount MAX_RETRIES with
                | left _ =>
                    sleep (backoff retryCount) ;;
                    (fun st' => appendTaxInfoToSheet w taxInfo (retryCount + 1) st')
                | right _ =>
                    ret {| sync_success := false;
                           sync_message :=
                             or_else result_message (utf16 "Apps Script returned error") |}
                end
            | NotJson =>
                match lt_dec retryCount MAX_RETRIES with
                | left _ =>
                    sleep (backoff retryCount) ;;
                    (fun st' => appendTaxInfoToSheet w taxInfo (retryCount + 1) st')
                | right _ =>
                    ret {| sync_success := false;
                           sync_message :=
                             utf16 "Failed to parse response from Google Sheets" |}
                end
            end
          else
            match (500 <=? status response)%N, lt_dec retryCount MAX_RETRIES with
            | true, left _ =>
                sleep (backoff retryCount) ;;
                (fun st' => appendTaxInfoToSheet w taxInfo (retryCount + 1) st')
            | _, _ =>
                ret {| sync_success := false;
                       sync_message :=
                         errorMessage (status response) (statusText response) |}
            end)
         (fun fetchError =>
            if eqb (name fetchError) (utf16 "AbortError") then
              match lt_dec retryCount MAX_RETRIES with
              | left _ =>
                  sleep (backoff retryCount) ;;
                  (fun st' => appendTaxInfoToSheet w taxInfo (retryCount + 1) st')
              | right _ =>
                  ret {| sync_success := false;
                         sync_message :=
                           utf16 "Request timeout. Please check your connection and try again." |}
              end
            else throw fetchError))
    (fun error =>
       if includes (utf16 "fetch failed") (message error)
          || includes (utf16 "ECONNREFUSED") (message error)
       then
         match lt_dec retryCount MAX_RETRIES with
         | left _ =>
             sleep (backoff retryCount) ;;
             (fun st' => appendTaxInfoToSheet w taxInfo (retryCount + 1) st')
         | right _ =>
             ret {| sync_success := false;
                    sync_message := utf16 "Network error. Please check your connection." |}
         end
       else
         ret {| sync_success := false;
                sync_message := or_else (Some (message error))
                                        (utf16 "Unknown error occurred") |}) st.
Proof. all: unfold MAX_RETRIES in *; destruct retryCount as [|[|?]]; simpl; lia. Qed.

(** *** Address formatter *)

(** The code unit of a one-character literal. *)
Definition ch (s : string) : codeunit := hd 0%N (utf16 s).

Definition ws : regex := Chr isWhiteSpace.

(** The four patterns, each ending in [$] and tried with [test]:
    [/,\s*Việt\s*Nam\s*$/i], [/,\s*Vietnam\s*$/i],
    [/\s+Việt\s*Nam\s*$/i] and [/\s+Vietnam\s*$/i]. *)
Definition vietnamPatterns : list regex :=
  [ Seq [Chr (lit (ch ",")); Star ws; StrI (utf16 "Việt"); Star ws;
         StrI (utf16 "Nam"); Star ws];
    Seq [Chr (lit (ch ",")); Star ws; StrI (utf16 "Vietnam"); Star ws];
    Seq [Plus ws; StrI (utf16 "Việt"); Star ws; StrI (utf16 "Nam"); Star ws];
    Seq [Plus ws; StrI (utf16 "Vietnam"); Star ws] ].

Definition hasVietnam (trimmedAddress : jsstring) : bool :=
  existsb (fun pattern => test_suffix pattern trimmedAddress) vietnamPatterns.

Definition formatAddress (address : jsstring) : jsstring :=
  if negb (truthy address) || eqb (trim address) [] then []
  else
    let trimmedAddress := trim address in
    if hasVietnam trimmedAddress then trimmedAddress
    else trimmedAddress ++ utf16 ", Việt Nam".

(** *** Static fallback table *)

Definition MOCK_TAX_DATA : list (jsstring * TaxApiData) :=
  [ (utf16 "3901212654",
     {| MaSoThue := Some (utf16 "3901212654");
        Title := Some (utf16 "Công Ty TNHH Mtv Ngô Trọng Phát");
        TitleEn := Some (utf16 "Ngo Trong Phat Co., Ltd");
        TitleEnAscii := None;
        DiaChiCongTy :=
          Some (utf16 "Tổ 17, ấp Tân Tiến, Xã Tân Lập, Huyện Tân Biên, Tỉnh Tây Ninh") |}) ].

(** [table[key]] *)
Fixpoint property {V} (table : list (jsstring * V)) (key : jsstring) : option V :=
  match table with
  | [] => None
  | (k, v) :: rest => if eqb k key then Some v else property rest key
  end.

(** *** Lookup source adapters and orchestrator *)

(** [/^[0-9]{10,13}$/] *)
Definition taxCodePattern : regex := Between 10 13 (Chr isDigit).

(** [o === s] *)
Definition is_string (o : option jsstring) (s : jsstring) : bool :=
  match o with Some x => eqb x s | None => false end.

Definition tryVietQRApi (w : World) (taxCode : jsstring) : M (option LookupResult) :=
  try_catch
    (let apiUrl := utf16 "https://api.vietqr.io/v2/business/" ++ taxCode in
     response <- fetch_get (vietqr w) apiUrl ;;
     if (status response =? 429)%N then ret None
     else if negb (ok response) then ret None
     else
       match body response with
       | None => ret None
       | Some data =>
           match is_string (vq_code data) (utf16 "00"), vq_data data with
           | true, Some d =>
               ret (Some (Found
                 {| c_taxCode := or_else (vq_id d) taxCode;
                    c_companyName := or_else (vq_name d) [];
                    c_companyNameEn := or_else (vq_internationalName d) [];
                    c_shortName := or_else (vq_shortName d) [];
                    c_address := formatAddress (or_else (vq_address d) []) |}))
           | _, _ =>
               if truthy_opt (vq_code data)
                  && negb (is_string (vq_code data) (utf16 "00"))
               then
                 let errorDesc := or_else (vq_desc data) (utf16 "Unknown error") in
                 ret (Some (NotFound (utf16 "VietQR API: " ++ errorDesc)))
               else ret None
           end
       end)
    (fun error => ret None).

(** The record built from an answer in the custom API's format. *)
Definition companyOf (data : TaxApiData) (taxCode : jsstring) : CompanyLookupResult :=
  {| c_taxCode := or_else (MaSoThue data) taxCode;
     c_companyName := or_else (Title data) [];
     c_companyNameEn := or_else (TitleEn data) [];
     c_shortName := or_else (TitleEnAscii data) [];
     c_address := formatAddress (or_else (DiaChiCongTy data) []) |}.

(** Priority 1 of the orchestrator, the configured custom API: [Some] is
    the result the orchestrator returns at once, [None] falls through. *)
Definition customApiStep (w : World) (taxCode : jsstring) : M (option LookupResult) :=
  let apiBaseUrl := env_TAX_LOOKUP_API_URL w in
  if truthy_opt apiBaseUrl
     && negb (includes (utf16 "example.com") (or_else apiBaseUrl []))
  then
    let apiUrl := or_else apiBaseUrl [] ++ utf16 "/" ++ taxCode in
    try_catch
      (response <- fetch_get (customApi w) apiUrl ;;
       if ok response then
         match body response with
         | None => throw (Error (utf16 "Invalid JSON response from custom API"))
         | Some data =>
             if truthy_opt (MaSoThue data) && truthy_opt (Title data)
             then ret (Some (Found (companyOf data taxCode)))
             else ret None
         end
       else ret None)
      (fun error => ret None)
  else ret None.

Definition notFoundMessage : jsstring :=
  utf16 "Không tìm thấy thông tin công ty từ các nguồn công khai. Vui lòng nhập thủ công hoặc kiểm tra lại mã số thuế.".

Definition lookupCompanyByTaxCode (w : World) (taxCode : jsstring) : M LookupResult :=
  try_catch
    (if negb (test_anchored taxCodePattern taxCode) then
       ret (NotFound (utf16 "Mã số thuế không hợp lệ"))
     else
       custom <- customApiStep w taxCode ;;
       match custom with
       | Some result => ret result
       | None =>
           vietQrResult <- tryVietQRApi w taxCode ;;
           match vietQrResult with
           | Some (Found data) => ret (Found data)
           | _ =>
               match property MOCK_TAX_DATA taxCode with
               | Some mockData => ret (Found (companyOf mockData taxCode))
               | None => ret (NotFound notFoundMessage)
               end
           end
       end)
    (fun error =>
       if eqb (name error) (utf16 "AbortError") then
         ret (NotFound (utf16 "Yêu cầu tra cứu quá thời gian. Vui lòng thử lại."))
       else if includes (utf16 "fetch failed") (message error)
               || includes (utf16 "ECONNREFUSED") (message error)
       then
         ret (NotFound (utf16 "Không thể kết nối đến server tra cứu. Đang sử dụng dữ liệu mẫu. Vui lòng cấu hình TAX_LOOKUP_API_URL trong file .env để sử dụng API thực."))
       else
         ret (NotFound (utf16 "Lỗi khi tra cứu thông tin công ty: " ++ message error))).

(** *** Request handlers *)

(** The JSON a route answers with. *)
Inductive ReplyBody : Type :=
| Failure : jsstring -> ReplyBody
    (** [{success: false, message}] *)
| LookupData : CompanyLookupResult -> ReplyBody
    (** [{success: true, data}] *)
| Saved : jsstring -> TaxInfo -> SyncOutcome -> ReplyBody
    (** [{success: true, message, data, googleSheetsSync}] *)
| Stored : option TaxInfo -> ReplyBody.
    (** [{success: true, data}] of [GET /api/tax-info] *)

Record HttpReply : Type := mkReply { http_status : N; http_body : ReplyBody }.

(** [res.status(code).json(body)]; [res.json(body)] answers with 200. *)
Definition reply (code : N) (b : ReplyBody) : HttpReply :=
  {| http_status := code; http_body := b |}.

Definition reply_success (r : HttpReply) : bool :=
  match http_body r with Failure _ => false | _ => true end.

(** [GET /api/tax-info] *)
Definition get_tax_info (w : World) : M HttpReply :=
  try_catch
    (taxInfo <- readTaxInfo w ;;
     ret (reply 200 (Stored taxInfo)))
    (fun error =>
       ret (reply 500 (Failure (utf16 "Failed to retrieve tax information")))).

(** [Promise.race] of the lookup against the 15-second timer: the calls
    the lookup makes are made either way, and the race rejects when the
    timer fires first. *)
Definition race_15s {A} (w : World) (m : M A) : M A :=
  x <- m ;;
  if lookup_exceeds_15s w
  then throw (Error (utf16 "Lookup timeout after 15 seconds"))
  else ret x.

Definition invalidTaxCodeMessage : jsstring :=
  utf16 "Mã số thuế không hợp lệ. Vui lòng nhập 10-13 chữ số.".

(** [GET /api/tax-lookup/:taxCode] *)
Definition get_tax_lookup (w : World) (taxCode : jsstring) : M HttpReply :=
  try_catch
    (if negb (truthy taxCode) || negb (test_anchored taxCodePattern taxCode) then
       ret (reply 200 (Failure invalidTaxCodeMessage))
     else
       raced <- try_catch
                  (result <- race_15s w (lookupCompanyByTaxCode w taxCode) ;;
                   ret (inl result))
                  (fun lookupError =>
                     ret (inr (reply 200 (Failure
                       (or_else (Some (message lookupError))
                          (utf16 "Lỗi khi tra cứu thông tin. Vui lòng thử lại sau.")))))) ;;
       match raced with
       | inr early => ret early
       | inl (Found data) => ret (reply 200 (LookupData data))
       | inl (NotFound result_message) =>
           let errorMessage :=
             or_else (Some result_message)
               (utf16 "Không tìm thấy thông tin công ty từ các nguồn tra cứu") in
           ret (reply 200 (Failure errorMessage))
       end)
    (fun error =>
       ret (reply 200 (Failure
         (utf16 "Lỗi khi tra cứu: "
            ++ or_else (Some (message error)) (utf16 "Vui lòng thử lại sau"))))).

(** [/^[A-Z0-9._%+-]+@[A-Z0-9.-]+\.[A-Z]{2,}$/i] *)
Definition isLetter (c : codeunit) : bool :=
  (((65 <=? c) && (c <=? 90)) || ((97 <=? c) && (c <=? 122)))%N.

Definition oneOf (s : jsstring) (c : codeunit) : bool :=
  existsb (fun p => (c =? p)%N) s.

Definition emailRegex : regex :=
  Seq [ Plus (Chr (fun c => isLetter c || isDigit c || oneOf (utf16 "._%+-") c));
        Chr (lit (ch "@"));
        Plus (Chr (fun c => isLetter c || isDigit c || oneOf (utf16 ".-") c));
        Chr (lit (ch "."));
        AtLeast 2 (Chr isLetter) ].

(** [/^[0-9]{10,11}$/] *)
Definition phonePattern : regex := Between 10 11 (Chr isDigit).

(** The phone normalizer of the submit handler. *)
Definition normalizePhone (phone : jsstring) : jsstring :=
  let normalizedPhone := removeWhiteSpace phone in
  let normalizedPhone := replaceAll (utf16 "-") [] normalizedPhone in
  let normalizedPhone := replaceAll (utf16 "+84") (utf16 "0") normalizedPhone in
  replacePrefix (utf16 "84") (utf16 "0") normalizedPhone.



(** The error-handling middleware, for an error [err] that reaches it on
    a request for [url]; [None] when the headers were already sent. *)
Definition errorMiddleware (headersSent : bool) (url : jsstring) (err : JsError)
  : option HttpReply :=
  if negb headersSent then
    if truthy url && includes (utf16 "/api/tax-lookup/") url then
      Some (reply 200 (Failure
        (or_else (Some (message err))
           (utf16 "Lỗi khi tra cứu thông tin. Vui lòng thử lại sau."))))
    else
      Some (reply 500 (Failure
        (or_else (Some (message err)) (utf16 "Something went wrong!"))))
  else None.

End Server.

Import Server.

Unset Implicit Arguments.

(* ===================================================================== *)
(** ** Vocabulary of the statements, and sample inputs *)
(* ===================================================================== *)

(** The status of a remote answer, if there is one. *)
Definition status_of {B} (o : FetchOutcome B) : option N :=
  match o with
  | Responded r => Some (status r)
  | Rejected _ => None
  end.

(** A webhook that answers every POST with the HTTP status [code]. *)
Definition webhook_always (w : World) (code : N) : Prop :=
  forall n row, status_of (webhook w n row) = Some code.

(** A webhook that answers every POST with a 2xx status and the JSON
    [{success: false, message}]. *)
Definition webhook_always_refuses (w : World) (msg : option jsstring) : Prop :=
  forall n row, exists r,
    webhook w n row = Responded r /\ ok r = true /\ body r = JsonBody false msg.

(** The sync ended after one POST, without waiting, with a failure. *)
Definition final_after_first_attempt (w : World) (taxInfo : TaxInfo) (st : State)
  (o : SyncOutcome) : Prop :=
  appendTaxInfoToSheet w taxInfo 0 st
  = (Ok o, log (Post (GOOGLE_APPS_SCRIPT_URL w) (sheetRow taxInfo)) st)
  /\ sync_success o = false.

(** The claim that neither a 4xx status nor a well-formed answer with a
    false success flag is retried, the server's message being surfaced. *)
Definition no_retry_claim (w : World) (taxInfo : TaxInfo) (st : State) : Prop :=
  forall r,
    webhook w (posts st) (sheetRow taxInfo) = Responded r ->
    ((400 <= status r <= 499)%N ->
     exists o, final_after_first_attempt w taxInfo st o)
    /\ (forall msg,
          ok r = true -> body r = JsonBody false (Some msg) ->
          final_after_first_attempt w taxInfo st
            {| sync_success := false; sync_message := msg |}).

(** The URL the public registry is asked at. *)
Definition vietqrUrl (taxCode : jsstring) : jsstring :=
  utf16 "https://api.vietqr.io/v2/business/" ++ taxCode.

(** The configured custom API is consulted. *)
Definition customApiInUse (w : World) : bool :=
  truthy_opt (env_TAX_LOOKUP_API_URL w)
  && negb (includes (utf16 "example.com") (or_else (env_TAX_LOOKUP_API_URL w) [])).

(** The public registry answered with a company record: a 2xx status
    (429 is none) and a body with code "00" and data. *)
Definition vietqrSucceeds (o : FetchOutcome (option VietQRBody)) : bool :=
  match o with
  | Responded r =>
      ok r
      && match body r with
         | Some data =>
             is_string (vq_code data) (utf16 "00")
             && match vq_data data with Some _ => true | None => false end
         | None => false
         end
  | Rejected _ => false
  end.

(** The claim that, all sources failing, the failure message carries the
    description the public registry gave with its error code. *)
Definition surfaces_registry_description (w : World) (taxCode : jsstring)
  (st : State) : Prop :=
  forall r data desc,
    test_anchored taxCodePattern taxCode = true ->
    customApiInUse w = false ->
    vietqr w (vietqrUrl taxCode) = Responded r ->
    ok r = true ->
    body r = Some data ->
    truthy_opt (vq_code data) = true ->
    is_string (vq_code data) (utf16 "00") = false ->
    vq_desc data = Some desc ->
    property MOCK_TAX_DATA taxCode = None ->
    exists msg st',
      lookupCompanyByTaxCode w taxCode st = (Ok (NotFound msg), st')
      /\ includes desc msg = true.

(** Whitespace only. *)
Definition spaces (s : jsstring) : Prop := forallb isWhiteSpace s = true.

(** [s] spells [pattern], letter case apart. *)
Fixpoint spellsI (pattern s : jsstring) : bool :=
  match pattern, s with
  | [], [] => true
  | p :: pattern', c :: s' => litI p c && spellsI pattern' s'
  | _, _ => false
  end.

(** What has to precede the country name: a comma and any whitespace, or
    at least one whitespace character. *)
Inductive separator : jsstring -> Prop :=
| sep_comma gap : spaces gap -> separator (ch "," :: gap)
| sep_blank c gap : isWhiteSpace c = true -> spaces gap -> separator (c :: gap).

(** The country name: "Vietnam", or "Việt" and "Nam" with any whitespace
    (or none) between them, in any letter case. *)
Inductive countryName : jsstring -> Prop :=
| name_one_word s : spellsI (utf16 "Vietnam") s = true -> countryName s
| name_two_words v gap n :
    spellsI (utf16 "Việt") v = true -> spaces gap ->
    spellsI (utf16 "Nam") n = true -> countryName (v ++ gap ++ n).

(** The text ends with a separator, the country name and any whitespace. *)
Definition endsWithCountryMarker (s : jsstring) : Prop :=
  exists before sep name after,
    s = before ++ sep ++ name ++ after
    /\ separator sep /\ countryName name /\ spaces after.

(** The text ends with "Việt Nam" or "Vietnam" in any letter case, whatever
    stands before it. *)
Definition endsWithCountryName (s : jsstring) : Prop :=
  exists before name,
    s = before ++ name
    /\ (spellsI (utf16 "Việt Nam") name = true \/ spellsI (utf16 "Vietnam") name = true).

(** The claim about the address formatter, the separator being optional. *)
Definition formatter_claim (address : jsstring) : Prop :=
  (trim address = [] -> formatAddress address = [])
  /\ (endsWithCountryName (trim address) -> formatAddress address = trim address)
  /\ (trim address <> [] -> ~ endsWithCountryName (trim address) ->
      formatAddress address = trim address ++ utf16 ", Việt Nam").

(** Whitespace or a hyphen. *)
Definition isPhoneSeparator (c : codeunit) : bool :=
  isWhiteSpace c || (c =? ch "-")%N.

(** The text once whitespace and hyphens are taken out. *)
Definition withoutSeparators (s : jsstring) : jsstring :=
  filter (fun c => negb (isPhoneSeparator c)) s.

(** The claim about the phone normalizer: any input with a separator or a
    country-code prefix comes out as "0" followed by digits only. *)
Definition phone_claim (phone : jsstring) : Prop :=
  existsb isPhoneSeparator phone = true
  \/ startsWith (utf16 "+84") phone = true
  \/ startsWith (utf16 "84") phone = true ->
  startsWith (utf16 "0") (normalizePhone phone) = true
  /\ forallb isDigit (normalizePhone phone) = true.

Module Sample.

Definition st0 : State := {| file := None; trace := [] |}.

Definition unreachable {B} : FetchOutcome B :=
  Rejected {| name := utf16 "TypeError"; message := utf16 "fetch failed" |}.

(** A local deployment: webhook configured, no custom lookup API, remote
    services out of reach. *)
Definition offline : World :=
  {| env_VERCEL := None;
     env_GOOGLE_APPS_SCRIPT_URL := Some (utf16 "https://script.google.com/macros/s/abc/exec");
     env_TAX_LOOKUP_API_URL := None;
     now := utf16 "2025-01-01T00:00:00.000Z";
     webhook := fun _ _ => unreachable;
     customApi := fun _ => unreachable;
     vietqr := fun _ => unreachable;
     fs_write_error := None;
     fs_read_error := None;
     lookup_exceeds_15s := false |}.

Definition with_webhook (w : World)
  (f : nat -> SheetRow -> FetchOutcome WebhookBody) : World :=
  {| env_VERCEL := env_VERCEL w;
     env_GOOGLE_APPS_SCRIPT_URL := env_GOOGLE_APPS_SCRIPT_URL w;
     env_TAX_LOOKUP_API_URL := env_TAX_LOOKUP_API_URL w;
     now := now w;
     webhook := f;
     customApi := customApi w;
     vietqr := vietqr w;
     fs_write_error := fs_write_error w;
     fs_read_error := fs_read_error w;
     lookup_exceeds_15s := lookup_exceeds_15s w |}.

Definition with_vietqr (w : World)
  (f : jsstring -> FetchOutcome (option VietQRBody)) : World :=
  {| env_VERCEL := env_VERCEL w;
     env_GOOGLE_APPS_SCRIPT_URL := env_GOOGLE_APPS_SCRIPT_URL w;
     env_TAX_LOOKUP_API_URL := env_TAX_LOOKUP_API_URL w;
     now := now w;
     webhook := webhook w;
     customApi := customApi w;
     vietqr := f;
     fs_write_error := fs_write_error w;
     fs_read_error := fs_read_error w;
     lookup_exceeds_15s := lookup_exceeds_15s w |}.

(** The same deployment on the read-only target. *)
Definition on_vercel : World :=
  {| env_VERCEL := Some (utf16 "1");
     env_GOOGLE_APPS_SCRIPT_URL := env_GOOGLE_APPS_SCRIPT_URL offline;
     env_TAX_LOOKUP_API_URL := None;
     now := now offline;
     webhook := webhook offline;
     customApi := customApi offline;
     vietqr := vietqr offline;
     fs_write_error := None;
     fs_read_error := None;
     lookup_exceeds_15s := false |}.


Definition answers (code : N) (text : string) (b : WebhookBody)
  : nat -> SheetRow -> FetchOutcome WebhookBody :=
  fun _ _ => Responded {| status := code; statusText := utf16 text; body := b |}.

Definition webhook_500 : World :=
  with_webhook offline (answers 500 "Internal Server Error" NotJson).

Definition webhook_400 : World :=
  with_webhook offline (answers 400 "Bad Request" NotJson).

Definition webhook_refusing : World :=
  with_webhook offline
    (answers 200 "OK" (JsonBody false (Some (utf16 "Sheet is locked")))).

(** The public registry answers with an error code and its description. *)
Definition registry_error : World :=
  with_vietqr offline
    (fun _ => Responded
       {| status := 200; statusText := utf16 "OK";
          body := Some {| vq_code := Some (utf16 "51");
                          vq_desc := Some (utf16 "Tax code does not exist");
                          vq_data := None |} |}).

Definition record : TaxInfo :=
  {| taxCode := utf16 "0316794479";
     companyName := utf16 "Cong Ty ABC";
     address := utf16 "12 Le Loi, Quan 1, Viet Nam";
     email := utf16 "test@example.com";
     phone := utf16 "0123456789";
     invoiceNumber := utf16 "000123";
     createdAt := utf16 "2025-01-01T00:00:00.000Z";
     updatedAt := utf16 "2025-01-01T00:00:00.000Z" |}.

End Sample.


(* ===================================================================== *)
(** ** The parse route and the spreadsheet webhook *)
(* ===================================================================== *)

Module Routes.

(** A value of a request body: a string, or another JSON value, kept as
    its text. The falsy ones are [null], [false], [0] and a property that
    is absent; the truthy ones are [true], a number other than 0, an
    object and an array. *)
Inductive JsValue : Type :=
| JString (s : jsstring)
| JFalsy (json : jsstring)
| JTruthy (json : jsstring).

Definition truthyValue (v : JsValue) : bool :=
  match v with
  | JString s => truthy s
  | JFalsy _ => false
  | JTruthy _ => true
  end.

(** [v || ''] *)
Definition or_empty (v : JsValue) : JsValue :=
  if truthyValue v then v else JString [].

(** The body of [POST /api/tax-lookup/parse], a JSON object. *)
Record ApiResponse : Type := mkApiResponse {
  body_MaSoThue : JsValue;
  body_Title : JsValue;
  body_TitleEn : JsValue;
  body_TitleEnAscii : JsValue;
  body_DiaChiCongTy : JsValue
}.

(** The [data] of the answer: the values are passed on as they came. *)
Record ParsedCompany : Type := mkParsedCompany {
  p_taxCode : JsValue;
  p_companyName : JsValue;
  p_companyNameEn : JsValue;
  p_shortName : JsValue;
  p_address : jsstring
}.

Inductive ParseBody : Type :=
| Parsed : ParsedCompany -> ParseBody
    (** [{success: true, data}] *)
| Refused : jsstring -> ParseBody.
    (** [{success: false, message}] *)

Record ParseReply : Type := mkParseReply { parse_status : N; parse_body : ParseBody }.

(** [formatAddress] called on a value that need not be a string: a falsy
    one is answered by [!address], and on a truthy one that is no string
    [address.trim] is not a function. The message is the one Node gives. *)
Definition formatAddressOf (address : JsValue) : Result jsstring :=
  match address with
  | JString s => Ok (formatAddress s)
  | JFalsy _ => Ok []
  | JTruthy _ =>
      Throw {| name := utf16 "TypeError";
               message := utf16 "address.trim is not a function" |}
  end.

(** [parseTaxApiResponse]: a payload in the custom API's format, mapped to
    the common record; [null] when [MaSoThue] or [Title] is falsy. *)
Definition parseTaxApiResponse (data : ApiResponse) : Result (option ParsedCompany) :=
  if truthyValue (body_MaSoThue data) && truthyValue (body_Title data) then
    match formatAddressOf (or_empty (body_DiaChiCongTy data)) with
    | Ok address =>
        Ok (Some {| p_taxCode := body_MaSoThue data;
                    p_companyName := or_empty (body_Title data);
                    p_companyNameEn := or_empty (body_TitleEn data);
                    p_shortName := or_empty (body_TitleEnAscii data);
                    p_address := address |})
    | Throw error => Throw error
    end
  else Ok None.

Definition cannotParseMessage : jsstring :=
  utf16 "Không thể parse response từ API. Đảm bảo response có MaSoThue và Title fields.".

(** [POST /api/tax-lookup/parse], for a body that is a JSON object. *)
Definition post_tax_lookup_parse (apiResponse : ApiResponse) : M ParseReply :=
  try_catch
    (match parseTaxApiResponse apiResponse with
     | Ok (Some data) => ret {| parse_status := 200; parse_body := Parsed data |}
     | Ok None => ret {| parse_status := 400; parse_body := Refused cannotParseMessage |}
     | Throw error => throw error
     end)
    (fun error =>
       ret {| parse_status := 500;
              parse_body := Refused (utf16 "Lỗi khi parse response: " ++ message error) |}).

(** A payload all of whose properties are strings or absent, and a record
    of strings, as values. *)
Definition valueOf (o : option jsstring) : JsValue :=
  match o with
  | Some s => JString s
  | None => JFalsy []
  end.

Definition ofStrings (data : TaxApiData) : ApiResponse :=
  {| body_MaSoThue := valueOf (MaSoThue data);
     body_Title := valueOf (Title data);
     body_TitleEn := valueOf (TitleEn data);
     body_TitleEnAscii := valueOf (TitleEnAscii data);
     body_DiaChiCongTy := valueOf (DiaChiCongTy data) |}.

Definition asValues (c : CompanyLookupResult) : ParsedCompany :=
  {| p_taxCode := JString (c_taxCode c);
     p_companyName := JString (c_companyName c);
     p_companyNameEn := JString (c_companyNameEn c);
     p_shortName := JString (c_shortName c);
     p_address := c_address c |}.

End Routes.

Module AppsScript.

(** A sheet is its rows, from row 1 to [getLastRow()]; a row is its cells.
    [SHEET_NAME] is [null], so the script works on the first sheet of the
    spreadsheet, which is taken to be one the script can open. *)
Definition Row : Type := list jsstring.
Definition Sheet : Type := list Row.
Definition Spreadsheet : Type := list Sheet.

(** The parsed [e.postData.contents], when it is not [null]; a property
    may be absent. *)
Record PostData : Type := mkPostData {
  pd_invoiceNumber : option jsstring;
  pd_taxCode : option jsstring;
  pd_companyName : option jsstring;
  pd_address : option jsstring;
  pd_email : option jsstring;
  pd_phone : option jsstring
}.

(** What the script answers with, as JSON text. *)
Record ScriptReply : Type := mkScriptReply { r_success : bool; r_message : jsstring }.

Definition headerRow : Row :=
  [ utf16 "Thời gian"; utf16 "Số hóa đơn"; utf16 "Mã số thuế"; utf16 "Tên công ty";
    utf16 "Địa chỉ"; utf16 "Email"; utf16 "Số điện thoại" ].

(** [sheet.getRange(1, 1).getValue()] *)
Definition firstRowValue (sheet : Sheet) : jsstring :=
  match sheet with
  | (cell :: _) :: _ => cell
  | _ => []
  end.

(** [sheet.insertRowBefore(1)] *)
Definition insertRowBefore1 (sheet : Sheet) : Sheet := [] :: sheet.

(** [sheet.getRange(1, 1, 1, 7).setValues([headerRow])]: the first seven
    cells of row 1 are overwritten. *)
Definition setHeaderValues (sheet : Sheet) : Sheet :=
  match sheet with
  | [] => [headerRow]
  | row1 :: rest => (headerRow ++ skipn 7 row1) :: rest
  end.

(** The header check of [doPost]. *)
Definition ensureHeader (sheet : Sheet) : Sheet :=
  let lastRow := List.length sheet in
  let hasHeader := eqb (firstRowValue sheet) (utf16 "Thời gian") in
  if (lastRow =? 0) || negb hasHeader then
    setHeaderValues
      (if (0 <? lastRow) && negb hasHeader then insertRowBefore1 sheet else sheet)
  else sheet.

Definition rowData (timestamp : jsstring) (data : PostData) : Row :=
  [ timestamp;
    or_else (pd_invoiceNumber data) [];
    or_else (pd_taxCode data) [];
    or_else (pd_companyName data) [];
    or_else (pd_address data) [];
    or_else (pd_email data) [];
    or_else (pd_phone data) [] ].

(** [error.toString()]: the name and the message joined by a colon, or the
    one of them that is not empty. *)
Definition toString (e : JsError) : jsstring :=
  match name e, message e with
  | [], msg => msg
  | nm, [] => nm
  | nm, msg => nm ++ utf16 ": " ++ msg
  end.

(** The [TypeError] of reading a property of [null]; the message is the
    one the V8 runtime gives. *)
Definition nullPropertyError : JsError :=
  {| name := utf16 "TypeError";
     message := utf16 "Cannot read properties of null (reading 'invoiceNumber')" |}.

(** [doPost(e)], given the clock, the outcome of
    [JSON.parse(e.postData.contents)] and the spreadsheet; it returns the
    answer and the spreadsheet as it leaves it. The parsed body is [None]
    for the JSON text [null]: the header is in place by the time
    [data.invoiceNumber] is read, so the exception leaves it there. A
    body that parses to a number, a string, a boolean or an array has
    none of the properties, like an empty object. *)
Definition doPost (timestamp : jsstring) (contents : Result (option PostData))
  (spreadsheet : Spreadsheet) : ScriptReply * Spreadsheet :=
  let failed (error : JsError) (left : Spreadsheet) :=
    ({| r_success := false; r_message := utf16 "Lỗi: " ++ toString error |}, left) in
  match contents with
  | Throw error => failed error spreadsheet
  | Ok data =>
      match spreadsheet with
      | [] =>
          failed (Error (utf16 "Không tìm thấy sheet nào trong spreadsheet")) spreadsheet
      | sheet :: others =>
          let withHeader := ensureHeader sheet in
          match data with
          | None => failed nullPropertyError (withHeader :: others)
          | Some data =>
              ({| r_success := true;
                  r_message := utf16 "Đã ghi dữ liệu vào Google Sheet thành công" |},
               (withHeader ++ [rowData timestamp data]) :: others)
          end
      end
  end.

(** What [JSON.parse] makes of the body the server posts. *)
Definition posted (row : SheetRow) : PostData :=
  {| pd_invoiceNumber := Some (row_invoiceNumber row);
     pd_taxCode := Some (row_taxCode row);
     pd_companyName := Some (row_companyName row);
     pd_address := Some (row_address row);
     pd_email := Some (row_email row);
     pd_phone := Some (row_phone row) |}.

(** The script's answer as the server reads it. *)
Definition asWebhookBody (r : ScriptReply) : WebhookBody :=
  JsonBody (r_success r) (Some (r_message r)).

End AppsScript.

(* ===================================================================== *)
(** ** Vocabulary of the further statements *)
(* ===================================================================== *)

(** Whether the sync, a retry being left, tries again after this answer:
    a 2xx answer that is not JSON or whose success flag is false, a 5xx
    status, a timeout, or a network failure. *)
Definition retryable (o : FetchOutcome WebhookBody) : bool :=
  match o with
  | Responded r =>
      if ok r then
        match body r with
        | JsonBody true _ => false
        | _ => true
        end
      else (500 <=? status r)%N
  | Rejected e =>
      eqb (name e) (utf16 "AbortError")
      || includes (utf16 "fetch failed") (message e)
      || includes (utf16 "ECONNREFUSED") (message e)
  end.

(** The outcome the sync reports when this answer ends it. *)
Definition finalOutcome (o : FetchOutcome WebhookBody) : SyncOutcome :=
  match o with
  | Responded r =>
      if ok r then
        match body r with
        | JsonBody true _ =>
            {| sync_success := true; sync_message := utf16 "Data saved to Google Sheets" |}
        | JsonBody false msg =>
            {| sync_success := false;
               sync_message := or_else msg (utf16 "Apps Script returned error") |}
        | NotJson =>
            {| sync_success := false;
               sync_message := utf16 "Failed to parse response from Google Sheets" |}
        end
      else
        {| sync_success := false;
           sync_message := errorMessage (status r) (statusText r) |}
  | Rejected e =>
      if eqb (name e) (utf16 "AbortError") then
        {| sync_success := false;
           sync_message :=
             utf16 "Request timeout. Please check your connection and try again." |}
      else if includes (utf16 "fetch failed") (message e)
              || includes (utf16 "ECONNREFUSED") (message e)
      then
        {| sync_success := false;
           sync_message := utf16 "Network error. Please check your connection." |}
      else
        {| sync_success := false;
           sync_message := or_else (Some (message e)) (utf16 "Unknown error occurred") |}
  end.

(** The events of [k + 1] attempts, the first of them with [retryCount]
    at [n]: a POST, then for each retry a wait and a POST. *)
Fixpoint attemptEvents (post : Event) (n k : nat) : list Event :=
  match k with
  | O => [post]
  | S k' => post :: Sleep (backoff n) :: attemptEvents post (S n) k'
  end.

(** A local deployment whose file system works. *)
Definition diskWorks (w : World) : Prop :=
  truthy_opt (env_VERCEL w) = false
  /\ fs_write_error w = None /\ fs_read_error w = None.

(** The URL the custom lookup API is asked at. *)
Definition customUrl (w : World) (taxCode : jsstring) : jsstring :=
  or_else (env_TAX_LOOKUP_API_URL w) [] ++ utf16 "/" ++ taxCode.

(** The custom lookup API answered with a usable record. *)
Definition customSucceeds (o : FetchOutcome (option TaxApiData)) : option TaxApiData :=
  match o with
  | Responded r =>
      if ok r then
        match body r with
        | Some data =>
            if truthy_opt (MaSoThue data) && truthy_opt (Title data)
            then Some data else None
        | None => None
        end
      else None
  | Rejected _ => None
  end.

(** The state in which the public registry is asked. *)
Definition afterCustom (w : World) (taxCode : jsstring) (st : State) : State :=
  if customApiInUse w then log (Get (customUrl w taxCode)) st else st.

(** The data of the public registry's answer, when it is a success: a 2xx
    status, code "00" and data. *)
Definition registryAnswer (o : FetchOutcome (option VietQRBody)) : option VietQRData :=
  match o with
  | Responded r =>
      if ok r then
        match body r with
        | Some data => if is_string (vq_code data) (utf16 "00") then vq_data data else None
        | None => None
        end
      else None
  | Rejected _ => None
  end.

(** The record of the public registry's answer. *)
Definition registryRecord (d : VietQRData) (taxCode : jsstring) : CompanyLookupResult :=
  {| c_taxCode := or_else (vq_id d) taxCode;
     c_companyName := or_else (vq_name d) [];
     c_companyNameEn := or_else (vq_internationalName d) [];
     c_shortName := or_else (vq_shortName d) [];
     c_address := formatAddress (or_else (vq_address d) []) |}.

(** An address as the formatter leaves it: without surrounding whitespace,
    and empty or ending with a country marker. *)
Definition formattedAddress (a : jsstring) : Prop :=
  trim a = a /\ (a = [] \/ hasVietnam a = true).

(** All three sources fail for [taxCode]: the custom API is not in use or
    gives no usable record, the public registry gives no record, and the
    static table has no entry. *)
Definition allSourcesFail (w : World) (taxCode : jsstring) : Prop :=
  (customApiInUse w = true -> customSucceeds (customApi w (customUrl w taxCode)) = None)
  /\ registryAnswer (vietqr w (vietqrUrl taxCode)) = None
  /\ property MOCK_TAX_DATA taxCode = None.

(** The phone normalizer as it is described: every "+84", from left to
    right, becomes "0"; then a leading "84" becomes "0"; all that on the
    text without whitespace and hyphens. *)
Fixpoint plus84ToZero (s : jsstring) : jsstring :=
  match s with
  | [] => []
  | c :: rest =>
      match rest with
      | d :: e :: rest' =>
          if ((c =? ch "+") && (d =? ch "8") && (e =? ch "4"))%N
          then ch "0" :: plus84ToZero rest'
          else c :: plus84ToZero rest
      | _ => c :: plus84ToZero rest
      end
  end.

Definition leading84ToZero (s : jsstring) : jsstring :=
  match s with
  | d :: e :: rest =>
      if ((d =? ch "8") && (e =? ch "4"))%N then ch "0" :: rest else s
  | _ => s
  end.

Definition normalizePhone_described (phone : jsstring) : jsstring :=
  leading84ToZero (plus84ToZero (withoutSeparators phone)).

(** The shape the e-mail pattern looks for. *)
Definition emailLocalChar (c : codeunit) : bool :=
  isLetter c || isDigit c || oneOf (utf16 "._%+-") c.

Definition emailDomainChar (c : codeunit) : bool :=
  isLetter c || isDigit c || oneOf (utf16 ".-") c.

Definition emailShape (s : jsstring) : Prop :=
  exists loc dom tld,
    s = loc ++ utf16 "@" ++ dom ++ utf16 "." ++ tld
    /\ loc <> [] /\ forallb emailLocalChar loc = true
    /\ dom <> [] /\ forallb emailDomainChar dom = true
    /\ 2 <= List.length tld /\ forallb isLetter tld = true.

Module Sample2.

(** A remote service answering with one fixed response. *)
Definition answering {B} (code : N) (b : B) : FetchOutcome B :=
  Responded {| status := code; statusText := utf16 "OK"; body := b |}.

(** The webhook fails once with a 503 and then accepts the row. *)
Definition webhook_recovering : World :=
  Sample.with_webhook Sample.offline
    (fun n _ =>
       match n with
       | O => Responded {| status := 503; statusText := utf16 "Service Unavailable";
                           body := NotJson |}
       | _ => answering 200 (JsonBody true (Some (utf16 "ok")))
       end).

Definition expired : JsError :=
  {| name := utf16 "Error"; message := utf16 "certificate has expired" |}.

Definition aborted : JsError :=
  {| name := utf16 "AbortError"; message := utf16 "This operation was aborted" |}.

(** The webhook rejects with an error the sync does not know. *)
Definition webhook_bad_certificate : World :=
  Sample.with_webhook Sample.offline (fun _ _ => Rejected expired).

Definition webhook_timing_out : World :=
  Sample.with_webhook Sample.offline (fun _ _ => Rejected aborted).

Definition webhook_html : World :=
  Sample.with_webhook Sample.offline (fun _ _ => answering 200 NotJson).

Definition company : TaxApiData :=
  {| MaSoThue := Some (utf16 "0316794479");
     Title := Some (utf16 "CÔNG TY TNHH CASSO");
     TitleEn := Some (utf16 "CASSO COMPANY LIMITED");
     TitleEnAscii := None;
     DiaChiCongTy := Some (utf16 "12 Le Loi, Quan 1, TP Ho Chi Minh") |}.

(** A deployment with a custom lookup API that knows the company. *)
Definition with_custom_api : World :=
  {| env_VERCEL := None;
     env_GOOGLE_APPS_SCRIPT_URL := env_GOOGLE_APPS_SCRIPT_URL Sample.offline;
     env_TAX_LOOKUP_API_URL := Some (utf16 "https://tax.internal/api");
     now := now Sample.offline;
     webhook := webhook Sample.offline;
     customApi := fun _ => answering 200 (Some company);
     vietqr := vietqr Sample.offline;
     fs_write_error := None;
     fs_read_error := None;
     lookup_exceeds_15s := false |}.

Definition registry_entry : VietQRData :=
  {| vq_id := Some (utf16 "3901212654");
     vq_name := Some (utf16 "CÔNG TY TNHH MTV NGÔ TRỌNG PHÁT");
     vq_internationalName := None;
     vq_shortName := None;
     vq_address := Some (utf16 "Tổ 17, ấp Tân Tiến, Tây Ninh") |}.

(** The public registry knows the company of the static table. *)
Definition registry_up : World :=
  Sample.with_vietqr Sample.offline
    (fun _ => answering 200
       (Some {| vq_code := Some (utf16 "00"); vq_desc := Some (utf16 "Success");
                vq_data := Some registry_entry |})).

(** Every source fails: the custom API is in use and answers 404, the
    public registry answers with an error code and its description. *)
Definition all_failing : World :=
  {| env_VERCEL := None;
     env_GOOGLE_APPS_SCRIPT_URL := env_GOOGLE_APPS_SCRIPT_URL Sample.offline;
     env_TAX_LOOKUP_API_URL := Some (utf16 "https://tax.internal/api");
     now := now Sample.offline;
     webhook := webhook Sample.offline;
     customApi :=
       fun _ => Responded {| status := 404; statusText := utf16 "Not Found";
                             body := None |};
     vietqr := vietqr Sample.registry_error;
     fs_write_error := None;
     fs_read_error := None;
     lookup_exceeds_15s := false |}.

(** A payload whose address is a number. *)
Definition numeric_address : Routes.ApiResponse :=
  {| Routes.body_MaSoThue := Routes.JString (utf16 "0316794479");
     Routes.body_Title := Routes.JString (utf16 "CÔNG TY TNHH CASSO");
     Routes.body_TitleEn := Routes.JFalsy [];
     Routes.body_TitleEnAscii := Routes.JFalsy [];
     Routes.body_DiaChiCongTy := Routes.JTruthy (utf16 "12") |}.



Definition sheet_with_data : AppsScript.Sheet :=
  [ [utf16 "old note"; utf16 "x"]; [utf16 "another"] ].

Definition noon : jsstring := utf16 "2025-01-01T12:00:00.000Z".

(** The webhook is the script, run on a spreadsheet of one sheet. *)
Definition webhook_script : World :=
  Sample.with_webhook Sample.offline
    (fun _ row =>
       Responded
         {| status := 200; statusText := utf16 "OK";
            body := AppsScript.asWebhookBody
                      (fst (AppsScript.doPost noon (Ok (Some (AppsScript.posted row)))
                              [sheet_with_data])) |}).

End Sample2.

(* ===================================================================== *)
(** ** Properties *)
(* ===================================================================== *)

(** *** Basic facts about strings *)

Lemma eqb_eq (a b : jsstring) : eqb a b = true <-> a = b.
Proof.
  unfold eqb. destruct (list_eq_dec N.eq_dec a b); split; congruence.
Qed.

Lemma eqb_refl (a : jsstring) : eqb a a = true.
Proof. apply eqb_eq. reflexivity. Qed.

(** *** Matching by derivatives decides the language *)

Lemma nullable_lang (r : regex) : nullable r = true <-> lang r [].
Proof.
  split.
  - induction r; cbn; intros H; try discriminate.
    + constructor.
    + apply andb_prop in H. destruct H as [H1 H2].
      change (@nil codeunit) with (@nil codeunit ++ []).
      constructor; auto.
    + apply orb_prop in H. destruct H as [H | H].
      * apply lang_alt_l; auto.
      * apply lang_alt_r; auto.
    + constructor.
  - intros H. remember (@nil codeunit) as s eqn:Es.
    induction H; cbn; try reflexivity; try discriminate.
    + apply app_eq_nil in Es. destruct Es as [-> ->].
      rewrite IHlang1, IHlang2; reflexivity.
    + rewrite IHlang; auto.
    + rewrite IHlang; auto. apply orb_true_r.
Qed.

Lemma lang_cat_inv (r1 r2 : regex) (s : jsstring) :
  lang (Cat r1 r2) s -> exists s1 s2, s = s1 ++ s2 /\ lang r1 s1 /\ lang r2 s2.
Proof. intros H. inversion H; subst. eauto. Qed.

Lemma lang_alt_inv (r1 r2 : regex) (s : jsstring) :
  lang (Alt r1 r2) s -> lang r1 s \/ lang r2 s.
Proof. intros H. inversion H; subst; auto. Qed.

Lemma lang_chr_inv (p : codeunit -> bool) (s : jsstring) :
  lang (Chr p) s -> exists c, s = [c] /\ p c = true.
Proof. intros H. inversion H; subst. eauto. Qed.

Lemma lang_eps_inv (s : jsstring) : lang Eps s -> s = [].
Proof. intros H. inversion H; subst. reflexivity. Qed.

Lemma lang_void_inv (s : jsstring) : lang Void s -> False.
Proof. intros H. inversion H. Qed.

(** A non-empty word of [r*] starts with a non-empty word of [r]. *)
Lemma lang_star_cons_inv (r : regex) (c : codeunit) (s : jsstring) :
  lang (Star r) (c :: s) ->
  exists s1 s2, s = s1 ++ s2 /\ lang r (c :: s1) /\ lang (Star r) s2.
Proof.
  intros H. remember (Star r) as r' eqn:Er. remember (c :: s) as t eqn:Et.
  induction H; try discriminate.
  injection Er as ->.
  destruct s1 as [| c1 s1'].
  - cbn in Et. auto.
  - cbn in Et. injection Et as -> <-. eauto.
Qed.

Lemma deriv_sound (c : codeunit) (r : regex) :
  forall s, lang (deriv c r) s -> lang r (c :: s).
Proof.
  induction r; cbn; intros s H.
  - destruct (lang_void_inv _ H).
  - destruct (lang_void_inv _ H).
  - destruct (b c) eqn:Ec.
    + apply lang_eps_inv in H. subst s. constructor. exact Ec.
    + destruct (lang_void_inv _ H).
  - destruct (nullable r1) eqn:En.
    + apply lang_alt_inv in H. destruct H as [H | H].
      * apply lang_cat_inv in H. destruct H as (s1 & s2 & -> & H1 & H2).
        change (c :: s1 ++ s2) with ((c :: s1) ++ s2). constructor; auto.
      * change (c :: s) with ([] ++ c :: s). constructor; auto.
        apply nullable_lang. exact En.
    + apply lang_cat_inv in H. destruct H as (s1 & s2 & -> & H1 & H2).
      change (c :: s1 ++ s2) with ((c :: s1) ++ s2). constructor; auto.
  - apply lang_alt_inv in H. destruct H as [H | H].
    + apply lang_alt_l; auto.
    + apply lang_alt_r; auto.
  - apply lang_cat_inv in H. destruct H as (s1 & s2 & -> & H1 & H2).
    change (c :: s1 ++ s2) with ((c :: s1) ++ s2). constructor; auto.
Qed.

Lemma deriv_complete (c : codeunit) (r : regex) :
  forall s, lang r (c :: s) -> lang (deriv c r) s.
Proof.
  induction r; cbn; intros s H.
  - destruct (lang_void_inv _ H).
  - apply lang_eps_inv in H. discriminate.
  - apply lang_chr_inv in H. destruct H as (c' & E & Hp).
    injection E as <- ->. rewrite Hp. constructor.
  - apply lang_cat_inv in H. destruct H as (s1 & s2 & E & H1 & H2).
    destruct s1 as [| c1 s1'].
    + cbn in E. subst s2.
      assert (En : nullable r1 = true) by (apply nullable_lang; exact H1).
      rewrite En. apply lang_alt_r. auto.
    + cbn in E. injection E as <- ->.
      assert (Hc : lang (Cat (deriv c r1) r2) (s1' ++ s2))
        by (constructor; auto).
      destruct (nullable r1); [apply lang_alt_l |]; exact Hc.
  - apply lang_alt_inv in H. destruct H as [H | H].
    + apply lang_alt_l; auto.
    + apply lang_alt_r; auto.
  - apply lang_star_cons_inv in H. destruct H as (s1 & s2 & -> & H1 & H2).
    constructor; auto.
Qed.

Theorem matches_lang (s : jsstring) :
  forall r, matches r s = true <-> lang r s.
Proof.
  induction s as [| c s IH]; intros r; cbn.
  - apply nullable_lang.
  - rewrite IH. split; [apply deriv_sound | apply deriv_complete].
Qed.

Lemma lang_star_any (s : jsstring) : lang (Star (Chr anyChar)) s.
Proof.
  induction s as [| c s IH].
  - constructor.
  - change (c :: s) with ([c] ++ s). constructor; [constructor; reflexivity | exact IH].
Qed.

(** A pattern that ends in [$] and does not start with [^] is found when
    some suffix of the string is in its language. *)
Lemma test_suffix_spec (r : regex) (s : jsstring) :
  test_suffix r s = true <-> exists before m, s = before ++ m /\ lang r m.
Proof.
  unfold test_suffix. rewrite matches_lang. split.
  - intros H. apply lang_cat_inv in H. destruct H as (s1 & s2 & -> & _ & H2). eauto.
  - intros (before & m & -> & H). constructor; [apply lang_star_any | exact H].
Qed.

(** *** Bounded repetition of a class *)

Lemma lang_times_chr (p : codeunit -> bool) (n : nat) :
  forall s, lang (Times n (Chr p)) s <-> List.length s = n /\ forallb p s = true.
Proof.
  induction n as [| n IH]; intros s; cbn [Times].
  - split.
    + intros H. apply lang_eps_inv in H. subst s. split; reflexivity.
    + intros [Hlen _]. destruct s; [constructor | discriminate].
  - split.
    + intros H. apply lang_cat_inv in H. destruct H as (s1 & s2 & -> & H1 & H2).
      apply lang_chr_inv in H1. destruct H1 as (c & -> & Hc).
      apply IH in H2. destruct H2 as [Hlen Hall].
      cbn. rewrite Hc, Hall, Hlen. split; reflexivity.
    + intros [Hlen Hall]. destruct s as [| c s]; [discriminate |].
      cbn in Hlen, Hall. apply andb_prop in Hall. destruct Hall as [Hc Hs].
      change (c :: s) with ([c] ++ s).
      constructor; [constructor; exact Hc | apply IH; split; [lia | exact Hs]].
Qed.

Lemma lang_upto_chr (p : codeunit -> bool) (k : nat) :
  forall s, lang (UpTo k (Chr p)) s <-> List.length s <= k /\ forallb p s = true.
Proof.
  induction k as [| k IH]; intros s; cbn [UpTo].
  - split.
    + intros H. apply lang_eps_inv in H. subst s. split; [cbn; lia | reflexivity].
    + intros [Hlen _]. destruct s; [constructor | cbn in Hlen; lia].
  - split.
    + intros H. apply lang_alt_inv in H. destruct H as [H | H].
      * apply lang_eps_inv in H. subst s. split; [cbn; lia | reflexivity].
      * apply lang_cat_inv in H. destruct H as (s1 & s2 & -> & H1 & H2).
        apply lang_chr_inv in H1. destruct H1 as (c & -> & Hc).
        apply IH in H2. destruct H2 as [Hlen Hall].
        cbn. rewrite Hc, Hall. split; [lia | reflexivity].
    + intros [Hlen Hall]. destruct s as [| c s].
      * apply lang_alt_l. constructor.
      * cbn in Hlen, Hall. apply andb_prop in Hall. destruct Hall as [Hc Hs].
        apply lang_alt_r. change (c :: s) with ([c] ++ s).
        constructor; [constructor; exact Hc | apply IH; split; [lia | exact Hs]].
Qed.

(** [/^[class]{m,n}$/] accepts the strings of [m] to [n] code units that
    are all in the class. *)
Theorem between_chr_spec (p : codeunit -> bool) (m n : nat) (s : jsstring) :
  m <= n ->
  (test_anchored (Between m n (Chr p)) s = true
   <-> m <= List.length s <= n /\ forallb p s = true).
Proof.
  intros Hmn. unfold test_anchored, Between. rewrite matches_lang. split.
  - intros H. apply lang_cat_inv in H. destruct H as (s1 & s2 & -> & H1 & H2).
    apply lang_times_chr in H1. destruct H1 as [L1 A1].
    apply lang_upto_chr in H2. destruct H2 as [L2 A2].
    rewrite length_app, forallb_app, A1, A2. split; [lia | reflexivity].
  - intros [Hlen Hall].
    rewrite <- (firstn_skipn m s) in Hall |- *.
    rewrite forallb_app in Hall. apply andb_prop in Hall. destruct Hall as [A1 A2].
    constructor.
    + apply lang_times_chr. split; [| exact A1]. rewrite length_firstn. lia.
    + apply lang_upto_chr. split; [| exact A2]. rewrite length_skipn. lia.
Qed.

(** The tax-code pattern accepts the strings of 10 to 13 decimal digits. *)
Corollary taxCodePattern_spec (s : jsstring) :
  test_anchored taxCodePattern s = true
  <-> 10 <= List.length s <= 13 /\ forallb isDigit s = true.
Proof. apply between_chr_spec. lia. Qed.

(** *** Persistence store *)


(** C9. With the VERCEL flag set, [writeTaxInfo] answers [true] and leaves
    the file system and the trace as they were (no write is performed),
    for every record; and [readTaxInfo] answers [null] whatever the file
    holds. *)
Theorem vercel_store_is_noop :
  forall (w : World),
    truthy_opt (env_VERCEL w) = true ->
    (forall taxInfo st, writeTaxInfo w taxInfo st = (Ok true, st))
    /\ (forall st, readTaxInfo w st = (Ok None, st)).
Proof.
  intros w Hv. split; intros.
  - unfold writeTaxInfo, try_catch. rewrite Hv. reflexivity.
  - unfold readTaxInfo, try_catch. rewrite Hv. reflexivity.
Qed.

Lemma vercel_store_is_noop_witness :
  (forall taxInfo st, writeTaxInfo Sample.on_vercel taxInfo st = (Ok true, st))
  /\ (forall st, readTaxInfo Sample.on_vercel st = (Ok None, st)).
Proof. apply (vercel_store_is_noop Sample.on_vercel). reflexivity. Defined.

(** *** Spreadsheet sync *)

(** Case analysis on everything one attempt looks at. *)
Ltac sync_cases :=
  repeat (cbn beta iota;
    match goal with
    | |- context [negb (truthy ?u)] => destruct (truthy u) eqn:?; cbn [negb]
    | |- context [webhook ?w ?n ?r] => destruct (webhook w n r) as [? | ?] eqn:?
    | |- context [ok ?r] => destruct (ok r) eqn:?
    | |- context [body ?r] => destruct (body r) as [| [|] ?] eqn:?
    | |- context [(500 <=? ?x)%N] => destruct (500 <=? x)%N eqn:?
    | |- context [eqb ?a ?b] => destruct (eqb a b) eqn:?
    | |- context [includes ?a ?b || includes ?c ?d] =>
        destruct (includes a b || includes c d) eqn:?
    | |- context [lt_dec ?a ?b] => destruct (lt_dec a b)
    end).

(** The sync never throws to its caller: every failure becomes an outcome. *)
Lemma sync_never_throws (w : World) (taxInfo : TaxInfo) :
  forall k retryCount st,
    MAX_RETRIES - retryCount <= k ->
    exists o st', appendTaxInfoToSheet w taxInfo retryCount st = (Ok o, st').
Proof.
  induction k as [| k IH]; intros retryCount st Hk;
    rewrite appendTaxInfoToSheet_equation_1;
    unfold try_catch, bind, ret, throw, sleep, fetch_post;
    sync_cases;
    try (eexists; eexists; reflexivity);
    try (exfalso; unfold MAX_RETRIES in *; lia);
    match goal with
    | |- context [appendTaxInfoToSheet w taxInfo (retryCount + 1) ?s] =>
        destruct (IH (retryCount + 1) s ltac:(unfold MAX_RETRIES in *; lia))
          as (? & ? & E);
        rewrite E; eexists; eexists; reflexivity
    end.
Qed.

Lemma sync_returns (w : World) (taxInfo : TaxInfo) (retryCount : nat) (st : State) :
  exists o st', appendTaxInfoToSheet w taxInfo retryCount st = (Ok o, st').
Proof. apply sync_never_throws with (k := MAX_RETRIES - retryCount). lia. Qed.

Section SyncSteps.

Variable w : World.
Variable taxInfo : TaxInfo.
Hypothesis configured : truthy (GOOGLE_APPS_SCRIPT_URL w) = true.

Let url := GOOGLE_APPS_SCRIPT_URL w.
Let row := sheetRow taxInfo.

(** One attempt that ends the sync: the answer is not [ok], and either its
    status is below 500 or no retry is left. *)
Lemma sync_gives_up_on_status (retryCount : nat) (st : State) (r : Response WebhookBody) :
  webhook w (posts st) row = Responded r ->
  ok r = false ->
  (status r < 500)%N \/ MAX_RETRIES <= retryCount ->
  appendTaxInfoToSheet w taxInfo retryCount st
  = (Ok {| sync_success := false;
           sync_message := errorMessage (status r) (statusText r) |},
     log (Post url row) st).
Proof.
  intros Hw Hok Hlow.
  rewrite appendTaxInfoToSheet_equation_1.
  unfold try_catch, bind, fetch_post. rewrite configured. cbn [negb].
  fold row. rewrite Hw, Hok.
  destruct (500 <=? status r)%N eqn:E500.
  - destruct (lt_dec retryCount MAX_RETRIES) as [Hlt | Hge].
    + exfalso. apply N.leb_le in E500. destruct Hlow; lia.
    + reflexivity.
  - reflexivity.
Qed.

(** One attempt that is retried because of a 5xx status. *)
Lemma sync_retries_on_5xx (retryCount : nat) (st : State) (r : Response WebhookBody) :
  webhook w (posts st) row = Responded r ->
  ok r = false ->
  (500 <= status r)%N ->
  retryCount < MAX_RETRIES ->
  appendTaxInfoToSheet w taxInfo retryCount st
  = appendTaxInfoToSheet w taxInfo (retryCount + 1)
      (log (Sleep (backoff retryCount)) (log (Post url row) st)).
Proof.
  intros Hw Hok H500 Hlt.
  rewrite appendTaxInfoToSheet_equation_1 at 1.
  unfold try_catch, bind, fetch_post, sleep. rewrite configured. cbn [negb].
  fold row. rewrite Hw, Hok.
  apply N.leb_le in H500. rewrite H500.
  destruct (lt_dec retryCount MAX_RETRIES) as [_ | Hge]; [| contradiction].
  fold url.
  destruct (sync_returns w taxInfo (retryCount + 1)
              (log (Sleep (backoff retryCount)) (log (Post url row) st)))
    as (o & st' & Erec).
  rewrite Erec. reflexivity.
Qed.

(** One attempt that is retried because the answer, though well formed,
    carries a false success flag. *)
Lemma sync_retries_on_refusal (retryCount : nat) (st : State)
  (r : Response WebhookBody) (msg : option jsstring) :
  webhook w (posts st) row = Responded r ->
  ok r = true ->
  body r = JsonBody false msg ->
  retryCount < MAX_RETRIES ->
  appendTaxInfoToSheet w taxInfo retryCount st
  = appendTaxInfoToSheet w taxInfo (retryCount + 1)
      (log (Sleep (backoff retryCount)) (log (Post url row) st)).
Proof.
  intros Hw Hok Hbody Hlt.
  rewrite appendTaxInfoToSheet_equation_1 at 1.
  unfold try_catch, bind, fetch_post, sleep. rewrite configured. cbn [negb].
  fold row. rewrite Hw, Hok, Hbody.
  destruct (lt_dec retryCount MAX_RETRIES) as [_ | Hge]; [| contradiction].
  fold url.
  destruct (sync_returns w taxInfo (retryCount + 1)
              (log (Sleep (backoff retryCount)) (log (Post url row) st)))
    as (o & st' & Erec).
  rewrite Erec. reflexivity.
Qed.

(** The attempt after the last retry, answered the same way. *)
Lemma sync_gives_up_on_refusal (retryCount : nat) (st : State)
  (r : Response WebhookBody) (msg : option jsstring) :
  webhook w (posts st) row = Responded r ->
  ok r = true ->
  body r = JsonBody false msg ->
  MAX_RETRIES <= retryCount ->
  appendTaxInfoToSheet w taxInfo retryCount st
  = (Ok {| sync_success := false;
           sync_message := or_else msg (utf16 "Apps Script returned error") |},
     log (Post url row) st).
Proof.
  intros Hw Hok Hbody Hge.
  rewrite appendTaxInfoToSheet_equation_1.
  unfold try_catch, bind, fetch_post. rewrite configured. cbn [negb].
  fold row. rewrite Hw, Hok, Hbody.
  destruct (lt_dec retryCount MAX_RETRIES) as [Hlt | _]; [exfalso; lia |].
  reflexivity.
Qed.

End SyncSteps.

Lemma status_of_responded {B} (o : FetchOutcome B) (code : N) :
  status_of o = Some code -> exists r, o = Responded r /\ status r = code.
Proof.
  destruct o as [r | e]; cbn; intros H; [| discriminate].
  exists r. split; congruence.
Qed.

Lemma not_ok_of_status {B} (r : Response B) :
  (300 <= status r)%N -> ok r = false.
Proof.
  intros H. unfold ok. apply andb_false_iff. right. apply N.leb_gt. lia.
Qed.

(** C3. With the webhook configured: when it answers every POST with
    HTTP 500, the sync makes three POSTs, waits 1000 ms after the first
    and 2000 ms after the second, and reports failure; when it answers
    with HTTP 400, the sync makes one POST, waits for nothing, and
    reports failure. This holds for every record. *)
Theorem sync_retries_500_not_400 :
  forall (w : World) (taxInfo : TaxInfo) (st : State),
    truthy (GOOGLE_APPS_SCRIPT_URL w) = true ->
    let post := Post (GOOGLE_APPS_SCRIPT_URL w) (sheetRow taxInfo) in
    (webhook_always w 500 ->
     exists o st',
       appendTaxInfoToSheet w taxInfo 0 st = (Ok o, st')
       /\ sync_success o = false
       /\ trace st' = trace st ++ [post; Sleep 1000; post; Sleep 2000; post])
    /\ (webhook_always w 400 ->
        exists o st',
          appendTaxInfoToSheet w taxInfo 0 st = (Ok o, st')
          /\ sync_success o = false
          /\ trace st' = trace st ++ [post]).
Proof.
  intros w taxInfo st Hurl post. split; intros Hw.
  - set (s1 := log (Sleep (backoff 0)) (log post st)).
    set (s2 := log (Sleep (backoff 1)) (log post s1)).
    destruct (status_of_responded _ _ (Hw (posts st) (sheetRow taxInfo)))
      as (r0 & E0 & S0).
    destruct (status_of_responded _ _ (Hw (posts s1) (sheetRow taxInfo)))
      as (r1 & E1 & S1).
    destruct (status_of_responded _ _ (Hw (posts s2) (sheetRow taxInfo)))
      as (r2 & E2 & S2).
    rewrite (sync_retries_on_5xx w taxInfo Hurl 0 st r0 E0);
      [| apply not_ok_of_status; lia | lia | unfold MAX_RETRIES; lia].
    change (0 + 1) with 1. fold post s1.
    rewrite (sync_retries_on_5xx w taxInfo Hurl 1 s1 r1 E1);
      [| apply not_ok_of_status; lia | lia | unfold MAX_RETRIES; lia].
    change (1 + 1) with 2. fold post s2.
    rewrite (sync_gives_up_on_status w taxInfo Hurl 2 s2 r2 E2);
      [| apply not_ok_of_status; lia | right; unfold MAX_RETRIES; lia].
    eexists; eexists. split; [reflexivity |]. split; [reflexivity |].
    cbn. repeat rewrite <- app_assoc. reflexivity.
  - destruct (status_of_responded _ _ (Hw (posts st) (sheetRow taxInfo)))
      as (r0 & E0 & S0).
    rewrite (sync_gives_up_on_status w taxInfo Hurl 0 st r0 E0);
      [| apply not_ok_of_status; lia | left; lia].
    eexists; eexists. split; [reflexivity |]. split; reflexivity.
Qed.

Lemma sync_retries_500_not_400_witness :
  (exists o st',
     appendTaxInfoToSheet Sample.webhook_500 Sample.record 0 Sample.st0 = (Ok o, st')
     /\ sync_success o = false
     /\ trace st'
        = trace Sample.st0
          ++ [Post (GOOGLE_APPS_SCRIPT_URL Sample.webhook_500) (sheetRow Sample.record);
              Sleep 1000;
              Post (GOOGLE_APPS_SCRIPT_URL Sample.webhook_500) (sheetRow Sample.record);
              Sleep 2000;
              Post (GOOGLE_APPS_SCRIPT_URL Sample.webhook_500) (sheetRow Sample.record)])
  /\ (exists o st',
        appendTaxInfoToSheet Sample.webhook_400 Sample.record 0 Sample.st0 = (Ok o, st')
        /\ sync_success o = false
        /\ trace st'
           = trace Sample.st0
             ++ [Post (GOOGLE_APPS_SCRIPT_URL Sample.webhook_400) (sheetRow Sample.record)]).
Proof.
  split.
  - apply (proj1 (sync_retries_500_not_400 Sample.webhook_500 Sample.record Sample.st0
                    eq_refl)).
    intros n row. reflexivity.
  - apply (proj2 (sync_retries_500_not_400 Sample.webhook_400 Sample.record Sample.st0
                    eq_refl)).
    intros n row. reflexivity.
Defined.

(** C1, as stated, fails: a webhook that answers 200 with
    [{success: false, message: "Sheet is locked"}] is asked three times. *)
Lemma refusal_is_retried_counterexample :
  ~ no_retry_claim Sample.webhook_refusing Sample.record Sample.st0.
Proof.
  intros H.
  destruct (H {| status := 200; statusText := utf16 "OK";
                 body := JsonBody false (Some (utf16 "Sheet is locked")) |}
              eq_refl) as [_ Hflag].
  destruct (Hflag (utf16 "Sheet is locked") eq_refl eq_refl) as [Hrun _].
  apply (f_equal (fun p => List.length (trace (snd p)))) in Hrun.
  vm_compute in Hrun. discriminate Hrun.
Qed.

(** C1, amended. With the webhook configured: an answer with a 4xx status
    ends the sync at that attempt, with one POST, no wait, and the message
    [errorMessage] builds from the status line; a webhook that keeps
    answering with a well-formed body whose success flag is false is asked
    three times, with waits of 1000 ms and 2000 ms, and the failure then
    reported carries the server's message (a fixed text when it is absent
    or empty). *)
Theorem sync_4xx_final_refusal_retried :
  forall (w : World) (taxInfo : TaxInfo) (st : State),
    truthy (GOOGLE_APPS_SCRIPT_URL w) = true ->
    let post := Post (GOOGLE_APPS_SCRIPT_URL w) (sheetRow taxInfo) in
    (forall r retryCount,
       webhook w (posts st) (sheetRow taxInfo) = Responded r ->
       (400 <= status r <= 499)%N ->
       appendTaxInfoToSheet w taxInfo retryCount st
       = (Ok {| sync_success := false;
                sync_message := errorMessage (status r) (statusText r) |},
          log post st))
    /\ (forall msg,
          webhook_always_refuses w msg ->
          appendTaxInfoToSheet w taxInfo 0 st
          = (Ok {| sync_success := false;
                   sync_message := or_else msg (utf16 "Apps Script returned error") |},
             {| file := file st;
                trace := trace st ++ [post; Sleep 1000; post; Sleep 2000; post] |})).
Proof.
  intros w taxInfo st Hurl post. split.
  - intros r retryCount Hw Hs.
    apply (sync_gives_up_on_status w taxInfo Hurl retryCount st r Hw).
    + apply not_ok_of_status. lia.
    + left. lia.
  - intros msg Hw.
    set (s1 := log (Sleep (backoff 0)) (log post st)).
    set (s2 := log (Sleep (backoff 1)) (log post s1)).
    destruct (Hw (posts st) (sheetRow taxInfo)) as (r0 & E0 & K0 & B0).
    destruct (Hw (posts s1) (sheetRow taxInfo)) as (r1 & E1 & K1 & B1).
    destruct (Hw (posts s2) (sheetRow taxInfo)) as (r2 & E2 & K2 & B2).
    rewrite (sync_retries_on_refusal w taxInfo Hurl 0 st r0 msg E0 K0 B0);
      [| unfold MAX_RETRIES; lia].
    change (0 + 1) with 1. fold post s1.
    rewrite (sync_retries_on_refusal w taxInfo Hurl 1 s1 r1 msg E1 K1 B1);
      [| unfold MAX_RETRIES; lia].
    change (1 + 1) with 2. fold post s2.
    rewrite (sync_gives_up_on_refusal w taxInfo Hurl 2 s2 r2 msg E2 K2 B2);
      [| unfold MAX_RETRIES; lia].
    f_equal. unfold log. cbn. f_equal.
    repeat rewrite <- app_assoc. reflexivity.
Qed.

Lemma sync_4xx_final_refusal_retried_witness :
  appendTaxInfoToSheet Sample.webhook_400 Sample.record 0 Sample.st0
  = (Ok {| sync_success := false; sync_message := utf16 "HTTP 400: Bad Request" |},
     log (Post (GOOGLE_APPS_SCRIPT_URL Sample.webhook_400) (sheetRow Sample.record))
       Sample.st0)
  /\ appendTaxInfoToSheet Sample.webhook_refusing Sample.record 0 Sample.st0
     = (Ok {| sync_success := false; sync_message := utf16 "Sheet is locked" |},
        {| file := None;
           trace :=
             [Post (GOOGLE_APPS_SCRIPT_URL Sample.webhook_refusing) (sheetRow Sample.record);
              Sleep 1000;
              Post (GOOGLE_APPS_SCRIPT_URL Sample.webhook_refusing) (sheetRow Sample.record);
              Sleep 2000;
              Post (GOOGLE_APPS_SCRIPT_URL Sample.webhook_refusing) (sheetRow Sample.record)] |}).
Proof.
  split.
  - apply (proj1 (sync_4xx_final_refusal_retried Sample.webhook_400 Sample.record
                    Sample.st0 eq_refl)
             {| status := 400; statusText := utf16 "Bad Request"; body := NotJson |} 0
             eq_refl).
    cbn. lia.
  - apply (proj2 (sync_4xx_final_refusal_retried Sample.webhook_refusing Sample.record
                    Sample.st0 eq_refl)
             (Some (utf16 "Sheet is locked"))).
    intros n row. eexists. repeat split.
Defined.

(** *** Lookup *)

Lemma tryVietQRApi_run (w : World) (taxCode : jsstring) (st : State) :
  exists r,
    tryVietQRApi w taxCode st = (Ok r, log (Get (vietqrUrl taxCode)) st)
    /\ (vietqrSucceeds (vietqr w (vietqrUrl taxCode)) = false ->
        r = None \/ exists msg, r = Some (NotFound msg)).
Proof.
  unfold tryVietQRApi, try_catch, bind, ret, fetch_get, vietqrSucceeds, vietqrUrl.
  destruct (vietqr w _) as [r | e]; [| eauto].
  destruct (status r =? 429)%N; [eauto |].
  destruct (ok r); cbn [negb andb]; [| eauto].
  destruct (body r) as [data |]; [| eauto].
  destruct (is_string (vq_code data) (utf16 "00")); cbn [negb andb].
  - destruct (vq_data data) as [d |].
    + eexists. split; [reflexivity | discriminate].
    + rewrite andb_false_r. eauto.
  - destruct (vq_data data); rewrite andb_true_r;
      destruct (truthy_opt (vq_code data)); eauto.
Qed.

Lemma customApiStep_run (w : World) (taxCode : jsstring) (st : State) :
  exists r st',
    customApiStep w taxCode st = (Ok r, st')
    /\ (r = None \/ exists d, r = Some (Found d))
    /\ (customApiInUse w = false -> r = None /\ st' = st).
Proof.
  unfold customApiStep, customApiInUse.
  destruct (truthy_opt (env_TAX_LOOKUP_API_URL w)
            && negb (includes (utf16 "example.com")
                       (or_else (env_TAX_LOOKUP_API_URL w) []))).
  - unfold try_catch, bind, ret, throw, fetch_get.
    destruct (customApi w _) as [r | e].
    + destruct (ok r).
      * destruct (body r) as [data |].
        -- destruct (truthy_opt (MaSoThue data) && truthy_opt (Title data));
             eexists; eexists; (split; [reflexivity |]); split; eauto; discriminate.
        -- eexists; eexists; (split; [reflexivity |]); split; eauto; discriminate.
      * eexists; eexists; (split; [reflexivity |]); split; eauto; discriminate.
    + eexists; eexists; (split; [reflexivity |]); split; eauto; discriminate.
  - exists None, st. unfold ret. auto.
Qed.

(** The orchestrator on a well-formed tax code: what it returns, by the
    outcome of each source. *)
Lemma lookup_run (w : World) (taxCode : jsstring) (st : State) :
  test_anchored taxCodePattern taxCode = true ->
  exists c st1 v,
    customApiStep w taxCode st = (Ok c, st1)
    /\ tryVietQRApi w taxCode st1 = (Ok v, log (Get (vietqrUrl taxCode)) st1)
    /\ lookupCompanyByTaxCode w taxCode st
       = match c with
         | Some result => (Ok result, st1)
         | None =>
             (Ok match v with
                 | Some (Found data) => Found data
                 | _ =>
                     match property MOCK_TAX_DATA taxCode with
                     | Some mockData => Found (companyOf mockData taxCode)
                     | None => NotFound notFoundMessage
                     end
                 end,
              log (Get (vietqrUrl taxCode)) st1)
         end.
Proof.
  intros Hvalid.
  destruct (customApiStep_run w taxCode st) as (c & st1 & Ec & _ & _).
  destruct (tryVietQRApi_run w taxCode st1) as (v & Ev & _).
  exists c, st1, v. split; [exact Ec |]. split; [exact Ev |].
  unfold lookupCompanyByTaxCode, try_catch, bind. rewrite Hvalid. cbn [negb].
  rewrite Ec. destruct c as [result |]; [reflexivity |].
  rewrite Ev. unfold ret.
  destruct v as [[data | msg] |];
    destruct (property MOCK_TAX_DATA taxCode); reflexivity.
Qed.

(** C2, as stated, fails: the public registry answers with code "51" and
    the description "Tax code does not exist", no other source knows the
    tax code, and the message returned does not carry the description. *)
Lemma registry_description_dropped_counterexample :
  ~ surfaces_registry_description Sample.registry_error (utf16 "0316794479") Sample.st0.
Proof.
  intros H.
  destruct (H _ _ (utf16 "Tax code does not exist")
              eq_refl eq_refl eq_refl eq_refl eq_refl eq_refl eq_refl eq_refl eq_refl)
    as (msg & st' & Hrun & Hincl).
  vm_compute in Hrun. injection Hrun as Hmsg _. subst msg.
  vm_compute in Hincl. discriminate Hincl.
Qed.

Lemma ok_not_429 {B} (r : Response B) : ok r = true -> (status r =? 429)%N = false.
Proof.
  unfold ok. intros H. apply andb_prop in H. destruct H as [_ H].
  apply N.leb_le in H. apply N.eqb_neq. lia.
Qed.

(** What the public-registry adapter returns, by the registry's answer. *)
Lemma tryVietQRApi_spec (w : World) (taxCode : jsstring) (st : State) :
  exists r,
    tryVietQRApi w taxCode st = (Ok r, log (Get (vietqrUrl taxCode)) st)
    /\ match registryAnswer (vietqr w (vietqrUrl taxCode)) with
       | Some d => r = Some (Found (registryRecord d taxCode))
       | None => r = None \/ exists msg, r = Some (NotFound msg)
       end.
Proof.
  unfold tryVietQRApi, try_catch, bind, ret, fetch_get, registryAnswer, vietqrUrl,
    registryRecord.
  destruct (vietqr w _) as [r | e]; [| eauto].
  destruct (ok r) eqn:Hok; cbn [negb].
  - rewrite (ok_not_429 r Hok).
    destruct (body r) as [data |]; [| eauto].
    destruct (is_string (vq_code data) (utf16 "00")); cbn [negb andb].
    + destruct (vq_data data) as [d |]; [eauto |].
      rewrite andb_false_r. eauto.
    + destruct (truthy_opt (vq_code data)); destruct (vq_data data); cbn [andb]; eauto.
  - destruct (status r =? 429)%N; eauto.
Qed.

(** What the custom-API step returns, by the API's answer. *)
Lemma customApiStep_spec (w : World) (taxCode : jsstring) (st : State) :
  customApiStep w taxCode st
  = if customApiInUse w
    then (Ok match customSucceeds (customApi w (customUrl w taxCode)) with
             | Some data => Some (Found (companyOf data taxCode))
             | None => None
             end,
          log (Get (customUrl w taxCode)) st)
    else (Ok None, st).
Proof.
  unfold customApiStep, customApiInUse, customSucceeds, customUrl.
  destruct (truthy_opt (env_TAX_LOOKUP_API_URL w)
            && negb (includes (utf16 "example.com")
                       (or_else (env_TAX_LOOKUP_API_URL w) []))); [| reflexivity].
  unfold try_catch, bind, ret, throw, fetch_get.
  destruct (customApi w _) as [r | e]; [| reflexivity].
  destruct (ok r); [| reflexivity].
  destruct (body r) as [data |]; [| reflexivity].
  destruct (truthy_opt (MaSoThue data) && truthy_opt (Title data)); reflexivity.
Qed.

(** The orchestrator on a well-formed tax code, source by source. *)
Lemma lookup_by_source (w : World) (taxCode : jsstring) (st : State) :
  test_anchored taxCodePattern taxCode = true ->
  match (if customApiInUse w
         then customSucceeds (customApi w (customUrl w taxCode)) else None) with
  | Some data =>
      lookupCompanyByTaxCode w taxCode st
      = (Ok (Found (companyOf data taxCode)), log (Get (customUrl w taxCode)) st)
  | None =>
      lookupCompanyByTaxCode w taxCode st
      = (Ok match registryAnswer (vietqr w (vietqrUrl taxCode)) with
            | Some d => Found (registryRecord d taxCode)
            | None =>
                match property MOCK_TAX_DATA taxCode with
                | Some mockData => Found (companyOf mockData taxCode)
                | None => NotFound notFoundMessage
                end
            end,
         log (Get (vietqrUrl taxCode)) (afterCustom w taxCode st))
  end.
Proof.
  intros Hvalid.
  destruct (lookup_run w taxCode st Hvalid) as (c & st1 & v & Ec & Ev & Erun).
  rewrite customApiStep_spec in Ec. unfold afterCustom.
  destruct (tryVietQRApi_spec w taxCode st1) as (v' & Ev' & Hv').
  rewrite Ev in Ev'. injection Ev' as <-.
  destruct (customApiInUse w).
  - injection Ec as <- <-.
    destruct (customSucceeds (customApi w (customUrl w taxCode))) as [data |].
    + exact Erun.
    + rewrite Erun.
      destruct (registryAnswer (vietqr w (vietqrUrl taxCode))) as [d |].
      * rewrite Hv'. reflexivity.
      * destruct Hv' as [-> | [msg ->]]; reflexivity.
  - injection Ec as <- <-. rewrite Erun.
    destruct (registryAnswer (vietqr w (vietqrUrl taxCode))) as [d |].
    + rewrite Hv'. reflexivity.
    + destruct Hv' as [-> | [msg ->]]; reflexivity.
Qed.

(** C2, amended. For a well-formed tax code, when all three sources fail
    (the custom API is not in use or gives no usable record, the public
    registry gives no record, whatever description comes with its error
    code, and the static table has no entry), the lookup returns a
    failure with the one generic not-found message, after the calls to
    the sources in use. Conversely, a failure is returned only then, and
    only with that message. *)
Theorem lookup_failure_is_generic :
  forall (w : World) (taxCode : jsstring) (st : State),
    test_anchored taxCodePattern taxCode = true ->
    (allSourcesFail w taxCode ->
     lookupCompanyByTaxCode w taxCode st
     = (Ok (NotFound notFoundMessage),
        log (Get (vietqrUrl taxCode)) (afterCustom w taxCode st)))
    /\ (forall msg st',
          lookupCompanyByTaxCode w taxCode st = (Ok (NotFound msg), st') ->
          msg = notFoundMessage /\ allSourcesFail w taxCode).
Proof.
  intros w taxCode st Hvalid.
  pose proof (lookup_by_source w taxCode st Hvalid) as Hrun.
  unfold allSourcesFail. split.
  - intros (Hcustom & Hregistry & Hmock).
    destruct (customApiInUse w).
    + rewrite (Hcustom eq_refl) in Hrun. rewrite Hrun, Hregistry, Hmock. reflexivity.
    + rewrite Hrun, Hregistry, Hmock. reflexivity.
  - intros msg st' Hfail.
    destruct (customApiInUse w);
      [destruct (customSucceeds (customApi w (customUrl w taxCode))) as [data |] |];
      rewrite Hrun in Hfail; try discriminate Hfail;
      destruct (registryAnswer (vietqr w (vietqrUrl taxCode))) as [d |];
      try discriminate Hfail;
      destruct (property MOCK_TAX_DATA taxCode) as [mockData |];
      try discriminate Hfail;
      injection Hfail as <- _;
      (split; [reflexivity |]); (split; [| split; reflexivity]);
      intros Huse; (reflexivity || discriminate Huse).
Qed.

Lemma lookup_failure_is_generic_witness :
  lookupCompanyByTaxCode Sample2.all_failing (utf16 "0316794479") Sample.st0
  = (Ok (NotFound notFoundMessage),
     log (Get (vietqrUrl (utf16 "0316794479")))
       (afterCustom Sample2.all_failing (utf16 "0316794479") Sample.st0)).
Proof.
  apply (proj1 (lookup_failure_is_generic Sample2.all_failing (utf16 "0316794479")
                  Sample.st0 eq_refl)).
  unfold allSourcesFail. split; [| split].
  - intros _. vm_compute. reflexivity.
  - vm_compute. reflexivity.
  - vm_compute. reflexivity.
Defined.

(** C8. With no custom API consulted and a public registry that does not
    answer with a record (out of reach, an HTTP error, an error payload),
    the lookup of "3901212654" succeeds from the static table, with the
    company name of the table and an address that ends in "Việt Nam". *)
Theorem lookup_static_fallback :
  forall (w : World) (st : State),
    customApiInUse w = false ->
    vietqrSucceeds (vietqr w (vietqrUrl (utf16 "3901212654"))) = false ->
    exists data,
      lookupCompanyByTaxCode w (utf16 "3901212654") st
      = (Ok (Found data), log (Get (vietqrUrl (utf16 "3901212654"))) st)
      /\ c_taxCode data = utf16 "3901212654"
      /\ c_companyName data = utf16 "Công Ty TNHH Mtv Ngô Trọng Phát"
      /\ c_address data
         = utf16 "Tổ 17, ấp Tân Tiến, Xã Tân Lập, Huyện Tân Biên, Tỉnh Tây Ninh, Việt Nam"
      /\ endsWith (utf16 "Việt Nam") (c_address data) = true.
Proof.
  intros w st Hcustom Hvq.
  set (taxCode := utf16 "3901212654") in *.
  destruct (lookup_run w taxCode st eq_refl) as (c & st1 & v & Ec & Ev & Erun).
  destruct (customApiStep_run w taxCode st) as (c' & st1' & Ec' & _ & Hoff).
  rewrite Ec in Ec'. injection Ec' as <- <-.
  destruct (Hoff Hcustom) as [-> ->].
  destruct (tryVietQRApi_run w taxCode st) as (v' & Ev' & Hfail).
  rewrite Ev in Ev'. injection Ev' as <-.
  exists (companyOf {| MaSoThue := Some (utf16 "3901212654");
                       Title := Some (utf16 "Công Ty TNHH Mtv Ngô Trọng Phát");
                       TitleEn := Some (utf16 "Ngo Trong Phat Co., Ltd");
                       TitleEnAscii := None;
                       DiaChiCongTy :=
                         Some (utf16 "Tổ 17, ấp Tân Tiến, Xã Tân Lập, Huyện Tân Biên, Tỉnh Tây Ninh") |}
            taxCode).
  split.
  - rewrite Erun. destruct (Hfail Hvq) as [-> | [msg ->]]; reflexivity.
  - split; [vm_compute; reflexivity |].
    split; [vm_compute; reflexivity |].
    split; vm_compute; reflexivity.
Qed.

Lemma lookup_static_fallback_witness :
  exists data,
    lookupCompanyByTaxCode Sample.offline (utf16 "3901212654") Sample.st0
    = (Ok (Found data), log (Get (vietqrUrl (utf16 "3901212654"))) Sample.st0)
    /\ c_taxCode data = utf16 "3901212654"
    /\ c_companyName data = utf16 "Công Ty TNHH Mtv Ngô Trọng Phát"
    /\ c_address data
       = utf16 "Tổ 17, ấp Tân Tiến, Xã Tân Lập, Huyện Tân Biên, Tỉnh Tây Ninh, Việt Nam"
    /\ endsWith (utf16 "Việt Nam") (c_address data) = true.
Proof.
  apply (lookup_static_fallback Sample.offline Sample.st0); reflexivity.
Defined.

(** *** Request handlers *)

Lemma lookup_route_invalid (w : World) (taxCode : jsstring) (st : State) :
  test_anchored taxCodePattern taxCode = false ->
  get_tax_lookup w taxCode st = (Ok (reply 200 (Failure invalidTaxCodeMessage)), st).
Proof.
  intros Hbad. unfold get_tax_lookup, try_catch, ret.
  rewrite Hbad. cbn [negb]. rewrite orb_true_r. reflexivity.
Qed.

Lemma lookup_route_200 (w : World) (taxCode : jsstring) (st : State) :
  exists r st',
    get_tax_lookup w taxCode st = (Ok r, st') /\ http_status r = 200%N.
Proof.
  unfold get_tax_lookup, race_15s. unfold try_catch, bind, ret, throw.
  destruct (negb (truthy taxCode) || negb (test_anchored taxCodePattern taxCode)).
  - eexists; eexists; split; reflexivity.
  - destruct (lookupCompanyByTaxCode w taxCode st) as [[[data | msg] | e] st'];
      destruct (lookup_exceeds_15s w);
      eexists; eexists; split; reflexivity.
Qed.

(** C7. The lookup route answers every request, and always with status
    200. For a tax code that holds a character other than a digit, such
    as "abc", or that is not 10 to 13 characters long, the answer is
    success false with the format message, and nothing was called. An
    error that reaches the error middleware on a lookup URL is answered
    with status 200 as well. *)
Theorem lookup_route_always_200 :
  (forall (w : World) (taxCode : jsstring) (st : State),
     exists r st',
       get_tax_lookup w taxCode st = (Ok r, st') /\ http_status r = 200%N)
  /\ (forall (w : World) (taxCode : jsstring) (st : State),
        forallb isDigit taxCode = false
        \/ ~ (10 <= List.length taxCode <= 13) ->
        get_tax_lookup w taxCode st
        = (Ok (reply 200 (Failure invalidTaxCodeMessage)), st))
  /\ (forall (url : jsstring) (err : JsError),
        includes (utf16 "/api/tax-lookup/") url = true ->
        exists msg, errorMiddleware false url err = Some (reply 200 (Failure msg))).
Proof.
  split; [| split].
  - intros. apply lookup_route_200.
  - intros w taxCode st Hbad. apply lookup_route_invalid.
    destruct (test_anchored taxCodePattern taxCode) eqn:E; [| reflexivity].
    apply taxCodePattern_spec in E. destruct E as [Hlen Hdigits].
    destruct Hbad as [Hnot | Hnot]; [congruence | contradiction].
  - intros url err Hurl. unfold errorMiddleware. cbn [negb].
    rewrite Hurl.
    destruct url as [| c url']; [discriminate Hurl |].
    cbn [truthy andb]. eexists. reflexivity.
Qed.

Lemma lookup_route_always_200_witness :
  get_tax_lookup Sample.offline (utf16 "abc") Sample.st0
  = (Ok (reply 200 (Failure invalidTaxCodeMessage)), Sample.st0)
  /\ exists msg,
       errorMiddleware false (utf16 "/api/tax-lookup/abc")
         (Error (utf16 "Lookup timeout after 15 seconds"))
       = Some (reply 200 (Failure msg)).
Proof.
  split.
  - apply (proj1 (proj2 lookup_route_always_200) Sample.offline (utf16 "abc")
             Sample.st0).
    left. reflexivity.
  - apply (proj2 (proj2 lookup_route_always_200)). reflexivity.
Defined.



(** *** Address formatter *)

Lemma lang_star_chr (p : codeunit -> bool) (s : jsstring) :
  lang (Star (Chr p)) s <-> forallb p s = true.
Proof.
  split.
  - intros H. remember (Star (Chr p)) as r eqn:Er.
    induction H; try discriminate; [reflexivity |].
    injection Er as ->.
    apply lang_chr_inv in H. destruct H as (c & -> & Hc).
    cbn. rewrite Hc. auto.
  - induction s as [| c s IH]; cbn; intros H.
    + constructor.
    + apply andb_prop in H. destruct H as [Hc Hs].
      change (c :: s) with ([c] ++ s). constructor; [constructor; exact Hc | auto].
Qed.

Lemma lang_strI (pattern : jsstring) :
  forall s, lang (StrI pattern) s <-> spellsI pattern s = true.
Proof.
  unfold StrI. induction pattern as [| p pattern IH]; intros s; cbn.
  - split.
    + intros H. apply lang_eps_inv in H. subst. reflexivity.
    + destruct s; [constructor | discriminate].
  - split.
    + intros H. apply lang_cat_inv in H. destruct H as (s1 & s2 & -> & H1 & H2).
      apply lang_chr_inv in H1. destruct H1 as (c & -> & Hc).
      cbn. rewrite Hc. apply IH. exact H2.
    + destruct s as [| c s]; [discriminate |]. intros H.
      apply andb_prop in H. destruct H as [Hc Hs].
      change (c :: s) with ([c] ++ s).
      constructor; [constructor; exact Hc | apply IH; exact Hs].
Qed.

Lemma lang_plus_chr (p : codeunit -> bool) (s : jsstring) :
  lang (Plus (Chr p)) s <-> exists c gap, s = c :: gap /\ p c = true /\ forallb p gap = true.
Proof.
  unfold Plus. split.
  - intros H. apply lang_cat_inv in H. destruct H as (s1 & s2 & -> & H1 & H2).
    apply lang_chr_inv in H1. destruct H1 as (c & -> & Hc).
    apply lang_star_chr in H2. exists c, s2. auto.
  - intros (c & gap & -> & Hc & Hgap).
    change (c :: gap) with ([c] ++ gap).
    constructor; [constructor; exact Hc | apply lang_star_chr; exact Hgap].
Qed.

(** The tail shared by the patterns: the country name and the whitespace
    that may follow it. *)
Lemma lang_one_word_tail (m : jsstring) :
  lang (Seq [StrI (utf16 "Vietnam"); Star ws]) m
  <-> exists name after,
        m = name ++ after /\ spellsI (utf16 "Vietnam") name = true /\ spaces after.
Proof.
  cbn [Seq]. split.
  - intros H. apply lang_cat_inv in H. destruct H as (name & t & -> & Hn & H).
    apply lang_cat_inv in H. destruct H as (after & e & -> & Ha & He).
    apply lang_eps_inv in He. subst e. rewrite app_nil_r.
    exists name, after. split; [reflexivity |]. split.
    + apply lang_strI. exact Hn.
    + apply lang_star_chr. exact Ha.
  - intros (name & after & -> & Hn & Ha).
    constructor; [apply lang_strI; exact Hn |].
    rewrite <- (app_nil_r after).
    constructor; [apply lang_star_chr; exact Ha | constructor].
Qed.

Lemma lang_two_words_tail (m : jsstring) :
  lang (Seq [StrI (utf16 "Việt"); Star ws; StrI (utf16 "Nam"); Star ws]) m
  <-> exists v gap n after,
        m = (v ++ gap ++ n) ++ after
        /\ spellsI (utf16 "Việt") v = true /\ spaces gap
        /\ spellsI (utf16 "Nam") n = true /\ spaces after.
Proof.
  cbn [Seq]. split.
  - intros H. apply lang_cat_inv in H. destruct H as (v & t1 & -> & Hv & H).
    apply lang_cat_inv in H. destruct H as (gap & t2 & -> & Hg & H).
    apply lang_cat_inv in H. destruct H as (n & t3 & -> & Hn & H).
    apply lang_cat_inv in H. destruct H as (after & e & -> & Ha & He).
    apply lang_eps_inv in He. subst e. rewrite app_nil_r.
    exists v, gap, n, after. split; [repeat rewrite <- app_assoc; reflexivity |].
    repeat split.
    + apply lang_strI. exact Hv.
    + apply lang_star_chr. exact Hg.
    + apply lang_strI. exact Hn.
    + apply lang_star_chr. exact Ha.
  - intros (v & gap & n & after & -> & Hv & Hg & Hn & Ha).
    repeat rewrite <- app_assoc.
    constructor; [apply lang_strI; exact Hv |].
    constructor; [apply lang_star_chr; exact Hg |].
    constructor; [apply lang_strI; exact Hn |].
    rewrite <- (app_nil_r after).
    constructor; [apply lang_star_chr; exact Ha | constructor].
Qed.

Lemma lang_country_tail (m : jsstring) :
  lang (Seq [StrI (utf16 "Vietnam"); Star ws]) m
  \/ lang (Seq [StrI (utf16 "Việt"); Star ws; StrI (utf16 "Nam"); Star ws]) m
  <-> exists name after, m = name ++ after /\ countryName name /\ spaces after.
Proof.
  rewrite lang_one_word_tail, lang_two_words_tail. split.
  - intros [(name & after & -> & Hn & Ha) | (v & gap & n & after & -> & Hv & Hg & Hn & Ha)].
    + exists name, after. split; [reflexivity |]. split; [constructor; exact Hn | exact Ha].
    + exists (v ++ gap ++ n), after. split; [reflexivity |].
      split; [constructor; assumption | exact Ha].
  - intros (name & after & -> & Hname & Ha).
    destruct Hname as [s Hs | v gap n Hv Hg Hn].
    + left. eauto.
    + right. exists v, gap, n, after. auto.
Qed.

(** A separator in front of a tail. *)
Lemma lang_comma_then (tail : regex) (m : jsstring) :
  lang (Cat (Chr (lit (ch ","))) (Cat (Star ws) tail)) m
  <-> exists gap t, m = (ch "," :: gap) ++ t /\ spaces gap /\ lang tail t.
Proof.
  split.
  - intros H. apply lang_cat_inv in H. destruct H as (s1 & s2 & -> & H1 & H).
    apply lang_chr_inv in H1. destruct H1 as (c & -> & Hc).
    apply N.eqb_eq in Hc. subst c.
    apply lang_cat_inv in H. destruct H as (gap & t & -> & Hg & Ht).
    exists gap, t. split; [reflexivity |]. split; [apply lang_star_chr; exact Hg | exact Ht].
  - intros (gap & t & -> & Hg & Ht).
    change ((ch "," :: gap) ++ t) with ([ch ","] ++ gap ++ t).
    constructor; [constructor; apply N.eqb_refl |].
    constructor; [apply lang_star_chr; exact Hg | exact Ht].
Qed.

Lemma lang_blank_then (tail : regex) (m : jsstring) :
  lang (Cat (Plus ws) tail) m
  <-> exists c gap t,
        m = (c :: gap) ++ t /\ isWhiteSpace c = true /\ spaces gap /\ lang tail t.
Proof.
  split.
  - intros H. apply lang_cat_inv in H. destruct H as (s1 & t & -> & H1 & Ht).
    apply lang_plus_chr in H1. destruct H1 as (c & gap & -> & Hc & Hg).
    exists c, gap, t. auto.
  - intros (c & gap & t & -> & Hc & Hg & Ht).
    constructor; [| exact Ht].
    apply lang_plus_chr. exists c, gap. auto.
Qed.

(** What the four patterns look for. *)
Theorem hasVietnam_spec (s : jsstring) :
  hasVietnam s = true <-> endsWithCountryMarker s.
Proof.
  unfold hasVietnam, vietnamPatterns, endsWithCountryMarker. cbn [existsb].
  rewrite orb_false_r. repeat rewrite orb_true_iff.
  repeat rewrite test_suffix_spec.
  cbn [Seq].
  change (Cat (StrI (utf16 "Vietnam")) (Cat (Star ws) Eps))
    with (Seq [StrI (utf16 "Vietnam"); Star ws]).
  change (Cat (StrI (utf16 "Việt"))
            (Cat (Star ws) (Cat (StrI (utf16 "Nam")) (Cat (Star ws) Eps))))
    with (Seq [StrI (utf16 "Việt"); Star ws; StrI (utf16 "Nam"); Star ws]).
  split.
  - intros H.
    assert (Hform :
      exists before sep t,
        s = before ++ sep ++ t /\ separator sep
        /\ (lang (Seq [StrI (utf16 "Vietnam"); Star ws]) t
            \/ lang (Seq [StrI (utf16 "Việt"); Star ws; StrI (utf16 "Nam"); Star ws]) t)).
    { destruct H as [(before & m & -> & H) | [(before & m & -> & H)
                    | [(before & m & -> & H) | (before & m & -> & H)]]].
      - apply lang_comma_then in H. destruct H as (gap & t & -> & Hg & Ht).
        exists before, (ch "," :: gap), t.
        split; [reflexivity |]. split; [constructor; exact Hg | right; exact Ht].
      - apply lang_comma_then in H. destruct H as (gap & t & -> & Hg & Ht).
        exists before, (ch "," :: gap), t.
        split; [reflexivity |]. split; [constructor; exact Hg | left; exact Ht].
      - apply lang_blank_then in H. destruct H as (c & gap & t & -> & Hc & Hg & Ht).
        exists before, (c :: gap), t.
        split; [reflexivity |]. split; [apply sep_blank; assumption | right; exact Ht].
      - apply lang_blank_then in H. destruct H as (c & gap & t & -> & Hc & Hg & Ht).
        exists before, (c :: gap), t.
        split; [reflexivity |]. split; [apply sep_blank; assumption | left; exact Ht]. }
    destruct Hform as (before & sep & t & -> & Hsep & Ht).
    apply lang_country_tail in Ht. destruct Ht as (name & after & -> & Hname & Ha).
    exists before, sep, name, after. auto.
  - intros (before & sep & name & after & -> & Hsep & Hname & Ha).
    assert (Ht : lang (Seq [StrI (utf16 "Vietnam"); Star ws]) (name ++ after)
                 \/ lang (Seq [StrI (utf16 "Việt"); Star ws; StrI (utf16 "Nam"); Star ws])
                      (name ++ after)).
    { apply lang_country_tail. exists name, after. auto. }
    destruct Hsep as [gap Hg | c gap Hc Hg]; destruct Ht as [Ht | Ht].
    + right; left. exists before, ((ch "," :: gap) ++ name ++ after).
      split; [reflexivity |]. apply lang_comma_then. exists gap, (name ++ after). auto.
    + left. exists before, ((ch "," :: gap) ++ name ++ after).
      split; [reflexivity |]. apply lang_comma_then. exists gap, (name ++ after). auto.
    + right; right; right. exists before, ((c :: gap) ++ name ++ after).
      split; [reflexivity |]. apply lang_blank_then.
      exists c, gap, (name ++ after). auto.
    + right; right; left. exists before, ((c :: gap) ++ name ++ after).
      split; [reflexivity |]. apply lang_blank_then.
      exists c, gap, (name ++ after). auto.
Qed.

Lemma blank_address (address : jsstring) :
  negb (truthy address) || eqb (trim address) [] = true <-> trim address = [].
Proof.
  destruct address as [| c address'].
  - cbn. split; reflexivity.
  - cbn [truthy negb orb]. apply eqb_eq.
Qed.

Lemma separator_not_empty (sep : jsstring) : separator sep -> sep <> [].
Proof. intros H. destruct H; discriminate. Qed.

(** C6, as stated, fails: "Hanoi-Vietnam" ends with the country name, and
    the formatter appends the suffix all the same. *)
Lemma formatter_needs_separator_counterexample :
  ~ formatter_claim (utf16 "Hanoi-Vietnam").
Proof.
  intros (_ & Hkeep & _).
  assert (Hends : endsWithCountryName (trim (utf16 "Hanoi-Vietnam"))).
  { exists (utf16 "Hanoi-"), (utf16 "Vietnam"). split; [reflexivity |].
    right. reflexivity. }
  specialize (Hkeep Hends). vm_compute in Hkeep. discriminate Hkeep.
Qed.

(** C6, amended. The formatter returns the empty string when the input is
    empty or blank. When the trimmed input ends with a country marker (a
    comma and any whitespace, or at least one whitespace character, then
    "Vietnam" or "Việt" and "Nam" with any whitespace between them, in any
    letter case, then any whitespace) it returns the trimmed input.
    Otherwise it returns the trimmed input followed by ", Việt Nam". *)
Theorem formatAddress_spec :
  forall (address : jsstring),
    (trim address = [] -> formatAddress address = [])
    /\ (endsWithCountryMarker (trim address) -> formatAddress address = trim address)
    /\ (trim address <> [] -> ~ endsWithCountryMarker (trim address) ->
        formatAddress address = trim address ++ utf16 ", Việt Nam").
Proof.
  intros address. unfold formatAddress.
  destruct (negb (truthy address) || eqb (trim address) []) eqn:Eblank.
  - apply blank_address in Eblank. split; [reflexivity |]. split.
    + intros (before & sep & name & after & E & Hsep & _).
      rewrite Eblank in E. symmetry in E.
      apply app_eq_nil in E. destruct E as [_ E].
      apply app_eq_nil in E. destruct E as [E _].
      destruct (separator_not_empty sep Hsep E).
    + intros Hne. destruct (Hne Eblank).
  - assert (Hne : trim address <> []).
    { intros E. apply blank_address in E. rewrite E in Eblank. discriminate. }
    split; [intros E; destruct (Hne E) |].
    destruct (hasVietnam (trim address)) eqn:Ehas.
    + split; [reflexivity |].
      intros _ Hnot. apply hasVietnam_spec in Ehas. destruct (Hnot Ehas).
    + split; [| reflexivity].
      intros Hends. apply hasVietnam_spec in Hends.
      rewrite Hends in Ehas. discriminate.
Qed.

Lemma formatAddress_spec_witness :
  formatAddress (utf16 "   ") = []
  /\ formatAddress (utf16 " 12 Le Loi, Quan 1 ,  VIỆT nam ")
     = utf16 "12 Le Loi, Quan 1 ,  VIỆT nam"
  /\ formatAddress (utf16 " Hanoi-Vietnam ")
     = utf16 "Hanoi-Vietnam, Việt Nam".
Proof.
  split; [| split].
  - apply (proj1 (formatAddress_spec (utf16 "   "))). reflexivity.
  - apply (proj1 (proj2 (formatAddress_spec (utf16 " 12 Le Loi, Quan 1 ,  VIỆT nam ")))).
    apply hasVietnam_spec. vm_compute. reflexivity.
  - apply (proj2 (proj2 (formatAddress_spec (utf16 " Hanoi-Vietnam ")))).
    + vm_compute. discriminate.
    + intros H. apply hasVietnam_spec in H. vm_compute in H. discriminate H.
Defined.

(** *** Phone normalizer *)

Lemma replaceAll_single (c : codeunit) (s : jsstring) :
  replaceAll [c] [] s = filter (fun x => negb (x =? c)%N) s.
Proof.
  unfold replaceAll. induction s as [| x r IH]; [reflexivity |].
  cbn [replaceAll_from startsWith filter List.length Nat.sub app].
  rewrite andb_true_r, (N.eqb_sym c x).
  destruct (x =? c)%N; cbn [negb]; rewrite IH; reflexivity.
Qed.

Lemma withoutSeparators_steps (phone : jsstring) :
  replaceAll (utf16 "-") [] (removeWhiteSpace phone) = withoutSeparators phone.
Proof.
  change (utf16 "-") with [45%N]. rewrite replaceAll_single.
  unfold removeWhiteSpace, withoutSeparators, isPhoneSeparator.
  change (ch "-") with 45%N.
  induction phone as [| c r IH]; [reflexivity |].
  cbn [filter]. destruct (isWhiteSpace c); cbn [negb orb filter].
  - exact IH.
  - destruct (c =? 45)%N; cbn [negb]; rewrite IH; reflexivity.
Qed.

Lemma replaceAll_from_forallb (p : codeunit -> bool) (lit rep : jsstring) :
  forallb p rep = true ->
  forall s k, forallb p s = true -> forallb p (replaceAll_from lit rep s k) = true.
Proof.
  intros Hrep. induction s as [| c r IH]; intros k Hs; [reflexivity |].
  cbn [forallb] in Hs. apply andb_prop in Hs. destruct Hs as [Hc Hr].
  cbn [replaceAll_from]. destruct k as [| k].
  - destruct (startsWith lit (c :: r)).
    + rewrite forallb_app, Hrep. cbn [andb]. apply IH. exact Hr.
    + cbn [forallb]. rewrite Hc. cbn [andb]. apply IH. exact Hr.
  - apply IH. exact Hr.
Qed.

Lemma skipn_forallb (p : codeunit -> bool) (n : nat) :
  forall s, forallb p s = true -> forallb p (skipn n s) = true.
Proof.
  induction n as [| n IH]; intros s Hs; [exact Hs |].
  destruct s as [| c r]; [reflexivity |].
  cbn [forallb] in Hs. apply andb_prop in Hs. destruct Hs as [_ Hr].
  cbn [skipn]. apply IH. exact Hr.
Qed.

Lemma replacePrefix_forallb (p : codeunit -> bool) (lit rep s : jsstring) :
  forallb p rep = true -> forallb p s = true ->
  forallb p (replacePrefix lit rep s) = true.
Proof.
  intros Hrep Hs. unfold replacePrefix. destruct (startsWith lit s); [| exact Hs].
  rewrite forallb_app, Hrep. cbn [andb]. apply skipn_forallb. exact Hs.
Qed.

Lemma filter_forallb (p : codeunit -> bool) (s : jsstring) :
  forallb p (filter p s) = true.
Proof.
  induction s as [| c r IH]; [reflexivity |].
  cbn [filter]. destruct (p c) eqn:Ec; [| exact IH].
  cbn [forallb]. rewrite Ec. exact IH.
Qed.

(** Text without a plus sign holds no "+84" to replace. *)
Lemma replaceAll_plus84_digits (digits : jsstring) :
  forallb isDigit digits = true ->
  replaceAll_from (utf16 "+84") (utf16 "0") digits 0 = digits.
Proof.
  change (utf16 "+84") with [43%N; 56%N; 52%N].
  induction digits as [| c r IH]; intros Hd; [reflexivity |].
  cbn [forallb] in Hd. apply andb_prop in Hd. destruct Hd as [Hc Hr].
  cbn [replaceAll_from startsWith].
  assert (E : (43 =? c)%N = false).
  { apply N.eqb_neq. unfold isDigit in Hc. apply andb_prop in Hc.
    destruct Hc as [Hlo _]. apply N.leb_le in Hlo. lia. }
  rewrite E. cbn [andb]. rewrite (IH Hr). reflexivity.
Qed.

(** C5, as stated, fails: the hotline number "1900 1234" holds a space, and
    comes out as "19001234", which does not start with "0". *)
Lemma phone_not_always_local_counterexample :
  ~ phone_claim (utf16 "1900 1234").
Proof.
  intros H.
  assert (Hpre : existsb isPhoneSeparator (utf16 "1900 1234") = true
                 \/ startsWith (utf16 "+84") (utf16 "1900 1234") = true
                 \/ startsWith (utf16 "84") (utf16 "1900 1234") = true).
  { left. vm_compute. reflexivity. }
  destruct (H Hpre) as [Hzero _].
  vm_compute in Hzero. discriminate Hzero.
Qed.

(** Replacing every "+84" from left to right, as the source's global
    replacement does it. *)
Lemma replaceAll_plus84 (s : jsstring) :
  replaceAll (utf16 "+84") (utf16 "0") s = plus84ToZero s.
Proof.
  unfold replaceAll.
  change (utf16 "+84") with [43%N; 56%N; 52%N]. change (utf16 "0") with [48%N].
  assert (H : forall n t, List.length t <= n ->
                replaceAll_from [43%N; 56%N; 52%N] [48%N] t 0 = plus84ToZero t).
  { induction n as [| n IH]; intros t Hlen.
    - destruct t; [reflexivity | cbn in Hlen; lia].
    - destruct t as [| c [| d [| e rest]]].
      + reflexivity.
      + cbn [replaceAll_from startsWith plus84ToZero].
        rewrite andb_false_r. reflexivity.
      + cbn [replaceAll_from startsWith plus84ToZero].
        rewrite !andb_false_r.
        destruct (56 =? d)%N; cbn [andb]; rewrite ?andb_false_r; reflexivity.
      + cbn [List.length] in Hlen.
        change (plus84ToZero (c :: d :: e :: rest))
          with (if ((c =? 43) && (d =? 56) && (e =? 52))%N
                then 48%N :: plus84ToZero rest
                else c :: plus84ToZero (d :: e :: rest)).
        cbn [replaceAll_from startsWith List.length Nat.sub app].
        rewrite andb_true_r, (N.eqb_sym 43 c), (N.eqb_sym 56 d), (N.eqb_sym 52 e),
          andb_assoc.
        destruct ((c =? 43) && (d =? 56) && (e =? 52))%N.
        * rewrite (IH rest) by (cbn [List.length]; lia). reflexivity.
        * rewrite <- (IH (d :: e :: rest)) by (cbn [List.length]; lia). reflexivity. }
  apply (H (List.length s)). lia.
Qed.

Lemma replacePrefix_84 (s : jsstring) :
  replacePrefix (utf16 "84") (utf16 "0") s = leading84ToZero s.
Proof.
  unfold replacePrefix.
  change (utf16 "84") with [56%N; 52%N]. change (utf16 "0") with [48%N].
  destruct s as [| d [| e rest]].
  - reflexivity.
  - cbn [startsWith leading84ToZero]. rewrite andb_false_r. reflexivity.
  - cbn [startsWith leading84ToZero].
    rewrite andb_true_r, (N.eqb_sym 56 d), (N.eqb_sym 52 e).
    change (ch "8") with 56%N. change (ch "4") with 52%N. change (ch "0") with 48%N.
    destruct ((d =? 56) && (e =? 52))%N; reflexivity.
Qed.

(** C5, amended. The normalizer is a total rewrite, and it is the one
    described: from the input without whitespace and hyphens, every
    "+84" is replaced by "0", and then a leading "84" by "0". Its result
    holds no whitespace and no hyphen. When the input, whitespace and
    hyphens taken out, is "+84", "84" or "0" followed by digits only, the
    result is "0" followed by those digits: it starts with "0" and holds
    only digits. *)
Theorem normalizePhone_spec :
  (forall (phone : jsstring), normalizePhone phone = normalizePhone_described phone)
  /\ (forall (phone : jsstring),
        forallb (fun c => negb (isPhoneSeparator c)) (normalizePhone phone) = true)
  /\ (forall (phone digits : jsstring),
        forallb isDigit digits = true ->
        withoutSeparators phone = utf16 "+84" ++ digits
        \/ withoutSeparators phone = utf16 "84" ++ digits
        \/ withoutSeparators phone = utf16 "0" ++ digits ->
        normalizePhone phone = utf16 "0" ++ digits
        /\ startsWith (utf16 "0") (normalizePhone phone) = true
        /\ forallb isDigit (normalizePhone phone) = true).
Proof.
  split; [| split].
  - intros phone. unfold normalizePhone, normalizePhone_described.
    rewrite withoutSeparators_steps, replaceAll_plus84, replacePrefix_84.
    reflexivity.
  - intros phone. unfold normalizePhone. rewrite withoutSeparators_steps.
    apply replacePrefix_forallb; [reflexivity |].
    apply replaceAll_from_forallb; [reflexivity |].
    apply filter_forallb.
  - intros phone digits Hd Hshape.
    assert (E : normalizePhone phone = utf16 "0" ++ digits).
    { unfold normalizePhone. rewrite withoutSeparators_steps.
      unfold replaceAll, replacePrefix.
      destruct Hshape as [-> | [-> | ->]].
      - change (utf16 "+84" ++ digits) with (43 :: 56 :: 52 :: digits)%N.
        change (replaceAll_from (utf16 "+84") (utf16 "0") (43 :: 56 :: 52 :: digits)%N 0)
          with (utf16 "0" ++ replaceAll_from (utf16 "+84") (utf16 "0") digits 0).
        rewrite (replaceAll_plus84_digits digits Hd). reflexivity.
      - change (utf16 "84" ++ digits) with (56 :: 52 :: digits)%N.
        rewrite (replaceAll_plus84_digits (56 :: 52 :: digits)%N);
          [reflexivity | exact Hd].
      - change (utf16 "0" ++ digits) with (48 :: digits)%N.
        rewrite (replaceAll_plus84_digits (48 :: digits)%N);
          [reflexivity | exact Hd]. }
    rewrite E. split; [reflexivity |]. split; [reflexivity | exact Hd].
Qed.

Lemma normalizePhone_spec_witness :
  normalizePhone (utf16 "+84 123-456-789") = utf16 "0" ++ utf16 "123456789"
  /\ startsWith (utf16 "0") (normalizePhone (utf16 "+84 123-456-789")) = true
  /\ forallb isDigit (normalizePhone (utf16 "+84 123-456-789")) = true.
Proof.
  apply (proj2 (proj2 normalizePhone_spec) (utf16 "+84 123-456-789")
           (utf16 "123456789")).
  - reflexivity.
  - left. reflexivity.
Defined.

(* ===================================================================== *)
(** ** Further properties *)
(* ===================================================================== *)

(** *** Spreadsheet sync: one attempt, and the whole run *)

Lemma posts_log_post (st : State) (url : jsstring) (row : SheetRow) :
  posts (log (Post url row) st) = S (posts st).
Proof.
  unfold posts, log. cbn [trace]. rewrite filter_app, length_app. cbn. lia.
Qed.

Lemma posts_log_sleep (st : State) (ms : N) :
  posts (log (Sleep ms) st) = posts st.
Proof.
  unfold posts, log. cbn [trace]. rewrite filter_app, length_app. cbn. lia.
Qed.

(** What one attempt does, by the webhook's answer to it. *)
Lemma sync_attempt_spec (w : World) (taxInfo : TaxInfo) (n : nat) (st : State) :
  truthy (GOOGLE_APPS_SCRIPT_URL w) = true ->
  appendTaxInfoToSheet w taxInfo n st
  = if retryable (webhook w (posts st) (sheetRow taxInfo)) && (n <? MAX_RETRIES)
    then appendTaxInfoToSheet w taxInfo (n + 1)
           (log (Sleep (backoff n))
              (log (Post (GOOGLE_APPS_SCRIPT_URL w) (sheetRow taxInfo)) st))
    else (Ok (finalOutcome (webhook w (posts st) (sheetRow taxInfo))),
          log (Post (GOOGLE_APPS_SCRIPT_URL w) (sheetRow taxInfo)) st).
Proof.
  intros Hurl.
  destruct (sync_returns w taxInfo (n + 1)
              (log (Sleep (backoff n))
                 (log (Post (GOOGLE_APPS_SCRIPT_URL w) (sheetRow taxInfo)) st)))
    as (o' & st' & Erec).
  rewrite appendTaxInfoToSheet_equation_1 at 1.
  unfold try_catch, bind, ret, throw, sleep, fetch_post, retryable, finalOutcome.
  rewrite Hurl. cbn [negb].
  destruct (Nat.ltb_spec n MAX_RETRIES) as [Hlt | Hge];
    destruct (webhook w (posts st) (sheetRow taxInfo)) as [r | e];
    sync_cases; cbn [andb orb];
    try rewrite Erec; try reflexivity; try contradiction; try lia;
    match goal with
    | H : includes _ _ || includes _ _ = _ |- _ => rewrite H; reflexivity
    end.
Qed.

(** The run from [retryCount = n]: the first [k] answers are retried, the
    next one ends the sync. *)
Lemma sync_run (w : World) (taxInfo : TaxInfo) :
  truthy (GOOGLE_APPS_SCRIPT_URL w) = true ->
  forall k n st,
    n + k <= MAX_RETRIES ->
    (forall i, i < k ->
       retryable (webhook w (posts st + i) (sheetRow taxInfo)) = true) ->
    n + k = MAX_RETRIES
    \/ retryable (webhook w (posts st + k) (sheetRow taxInfo)) = false ->
    appendTaxInfoToSheet w taxInfo n st
    = (Ok (finalOutcome (webhook w (posts st + k) (sheetRow taxInfo))),
       {| file := file st;
          trace := trace st
                   ++ attemptEvents
                        (Post (GOOGLE_APPS_SCRIPT_URL w) (sheetRow taxInfo)) n k |}).
Proof.
  intros Hurl. induction k as [| k IH]; intros n st Hn Hretry Hlast.
  - rewrite (sync_attempt_spec w taxInfo n st Hurl).
    replace (posts st + 0) with (posts st) in * by lia.
    destruct Hlast as [Hl | Hl].
    + replace n with MAX_RETRIES by lia.
      rewrite Nat.ltb_irrefl, andb_false_r. reflexivity.
    + rewrite Hl. reflexivity.
  - rewrite (sync_attempt_spec w taxInfo n st Hurl).
    pose proof (Hretry 0 ltac:(lia)) as H0.
    replace (posts st + 0) with (posts st) in H0 by lia.
    rewrite H0. cbn [andb].
    assert (Hlt : (n <? MAX_RETRIES) = true) by (apply Nat.ltb_lt; lia).
    rewrite Hlt.
    set (st2 := log (Sleep (backoff n))
                  (log (Post (GOOGLE_APPS_SCRIPT_URL w) (sheetRow taxInfo)) st)).
    assert (Hposts : posts st2 = S (posts st)).
    { unfold st2. rewrite posts_log_sleep, posts_log_post. reflexivity. }
    rewrite (IH (n + 1) st2).
    + rewrite Hposts. replace (S (posts st) + k) with (posts st + S k) by lia.
      f_equal. unfold st2, log. cbn [file trace attemptEvents].
      rewrite Nat.add_1_r. repeat rewrite <- app_assoc. reflexivity.
    + lia.
    + intros i Hi. rewrite Hposts.
      replace (S (posts st) + i) with (posts st + S i) by lia.
      apply Hretry. lia.
    + rewrite Hposts. replace (S (posts st) + k) with (posts st + S k) by lia.
      destruct Hlast as [Hl | Hl]; [left; lia | right; exact Hl].
Qed.

(** X1. With the webhook configured, the sync follows the webhook's
    answers: if the first [k] answers (at most two) are retryable and the
    next one is not, or no retry is left, the sync reports the outcome of
    that answer after [k + 1] POSTs, having waited 1000 ms times the
    attempt number between them. *)
Theorem sync_follows_answers :
  forall (w : World) (taxInfo : TaxInfo) (st : State) (k : nat),
    truthy (GOOGLE_APPS_SCRIPT_URL w) = true ->
    k <= MAX_RETRIES ->
    (forall i, i < k ->
       retryable (webhook w (posts st + i) (sheetRow taxInfo)) = true) ->
    k = MAX_RETRIES
    \/ retryable (webhook w (posts st + k) (sheetRow taxInfo)) = false ->
    appendTaxInfoToSheet w taxInfo 0 st
    = (Ok (finalOutcome (webhook w (posts st + k) (sheetRow taxInfo))),
       {| file := file st;
          trace := trace st
                   ++ attemptEvents
                        (Post (GOOGLE_APPS_SCRIPT_URL w) (sheetRow taxInfo)) 0 k |}).
Proof.
  intros w taxInfo st k Hurl Hk Hretry Hlast.
  apply (sync_run w taxInfo Hurl k 0 st); auto.
Qed.

Lemma sync_follows_answers_witness :
  appendTaxInfoToSheet Sample2.webhook_recovering Sample.record 0 Sample.st0
  = (Ok {| sync_success := true; sync_message := utf16 "Data saved to Google Sheets" |},
     {| file := None;
        trace :=
          [Post (GOOGLE_APPS_SCRIPT_URL Sample2.webhook_recovering) (sheetRow Sample.record);
           Sleep 1000;
           Post (GOOGLE_APPS_SCRIPT_URL Sample2.webhook_recovering) (sheetRow Sample.record)] |}).
Proof.
  apply (sync_follows_answers Sample2.webhook_recovering Sample.record Sample.st0 1).
  - reflexivity.
  - unfold MAX_RETRIES. lia.
  - intros i Hi. assert (i = 0) as -> by lia. reflexivity.
  - right. reflexivity.
Defined.

(** X2. In every world the sync returns an outcome and never throws; it
    leaves the file alone; it adds to the trace either nothing (exactly
    when no webhook is configured, the outcome then saying so) or one,
    two or three POSTs of the record's row with the waits between them. *)
Theorem sync_effects_bounded :
  forall (w : World) (taxInfo : TaxInfo) (st : State),
    exists o st',
      appendTaxInfoToSheet w taxInfo 0 st = (Ok o, st')
      /\ file st' = file st
      /\ (if truthy (GOOGLE_APPS_SCRIPT_URL w)
          then exists k,
                 k <= 2
                 /\ trace st'
                    = trace st
                      ++ attemptEvents
                           (Post (GOOGLE_APPS_SCRIPT_URL w) (sheetRow taxInfo)) 0 k
          else st' = st
               /\ o = {| sync_success := false;
                         sync_message := utf16 "Google Sheets not configured" |}).
Proof.
  intros w taxInfo st.
  destruct (truthy (GOOGLE_APPS_SCRIPT_URL w)) eqn:Hurl.
  - set (a := fun i => webhook w (posts st + i) (sheetRow taxInfo)).
    assert (Hk : exists k,
               k <= MAX_RETRIES
               /\ (forall i, i < k -> retryable (a i) = true)
               /\ (k = MAX_RETRIES \/ retryable (a k) = false)).
    { destruct (retryable (a 0)) eqn:E0.
      - destruct (retryable (a 1)) eqn:E1.
        + exists 2. split; [reflexivity |]. split; [| left; reflexivity].
          intros i Hi. destruct i as [| [| i]]; [exact E0 | exact E1 | lia].
        + exists 1. split; [unfold MAX_RETRIES; lia |]. split; [| right; exact E1].
          intros i Hi. assert (i = 0) as -> by lia. exact E0.
      - exists 0. split; [lia |]. split; [| right; exact E0].
        intros i Hi. lia. }
    destruct Hk as (k & Hk & Hretry & Hlast).
    rewrite (sync_run w taxInfo Hurl k 0 st Hk Hretry Hlast).
    eexists; eexists. split; [reflexivity |]. split; [reflexivity |].
    exists k. split; [exact Hk | reflexivity].
  - rewrite appendTaxInfoToSheet_equation_1. unfold try_catch, ret.
    rewrite Hurl. cbn [negb].
    eexists; eexists. split; [reflexivity |]. split; [reflexivity |].
    split; reflexivity.
Qed.

(** X3. With the webhook configured, a webhook that always times out, one
    that can never be reached, and one that always answers 2xx with a body
    that is not JSON are each asked three times before the failure is
    reported; a webhook whose request fails with any other error is asked
    once, and the error's own message is reported. *)
Theorem sync_on_constant_failure :
  forall (w : World) (taxInfo : TaxInfo) (st : State),
    truthy (GOOGLE_APPS_SCRIPT_URL w) = true ->
    let post := Post (GOOGLE_APPS_SCRIPT_URL w) (sheetRow taxInfo) in
    let after k := {| file := file st; trace := trace st ++ attemptEvents post 0 k |} in
    (forall e,
       (forall n row, webhook w n row = Rejected e) ->
       (eqb (name e) (utf16 "AbortError") = true ->
        appendTaxInfoToSheet w taxInfo 0 st
        = (Ok {| sync_success := false;
                 sync_message :=
                   utf16 "Request timeout. Please check your connection and try again." |},
           after 2))
       /\ (eqb (name e) (utf16 "AbortError") = false ->
           includes (utf16 "fetch failed") (message e)
           || includes (utf16 "ECONNREFUSED") (message e) = true ->
           appendTaxInfoToSheet w taxInfo 0 st
           = (Ok {| sync_success := false;
                    sync_message := utf16 "Network error. Please check your connection." |},
              after 2))
       /\ (eqb (name e) (utf16 "AbortError") = false ->
           includes (utf16 "fetch failed") (message e)
           || includes (utf16 "ECONNREFUSED") (message e) = false ->
           appendTaxInfoToSheet w taxInfo 0 st
           = (Ok {| sync_success := false;
                    sync_message :=
                      or_else (Some (message e)) (utf16 "Unknown error occurred") |},
              after 0)))
    /\ ((forall n row, exists r,
           webhook w n row = Responded r /\ ok r = true /\ body r = NotJson) ->
        appendTaxInfoToSheet w taxInfo 0 st
        = (Ok {| sync_success := false;
                 sync_message := utf16 "Failed to parse response from Google Sheets" |},
           after 2)).
Proof.
  intros w taxInfo st Hurl post after. split.
  - intros e He.
    assert (Hall : forall i, webhook w (posts st + i) (sheetRow taxInfo) = Rejected e)
      by (intros i; apply He).
    split; [| split].
    + intros Habort.
      rewrite (sync_run w taxInfo Hurl 2 0 st); [| reflexivity | | left; reflexivity].
      * rewrite Hall. cbn [finalOutcome]. rewrite Habort. reflexivity.
      * intros i _. rewrite Hall. cbn [retryable]. rewrite Habort. reflexivity.
    + intros Habort Hnet.
      rewrite (sync_run w taxInfo Hurl 2 0 st); [| reflexivity | | left; reflexivity].
      * rewrite Hall. cbn [finalOutcome]. rewrite Habort, Hnet. reflexivity.
      * intros i _. rewrite Hall. cbn [retryable]. rewrite Habort.
        cbn [orb]. exact Hnet.
    + intros Habort Hnet.
      rewrite (sync_run w taxInfo Hurl 0 0 st); [| unfold MAX_RETRIES; lia | | right].
      * rewrite Hall. cbn [finalOutcome]. rewrite Habort, Hnet. reflexivity.
      * intros i Hi. lia.
      * rewrite Hall. cbn [retryable]. rewrite Habort. cbn [orb]. exact Hnet.
  - intros Hw.
    assert (Hall : forall i,
               retryable (webhook w (posts st + i) (sheetRow taxInfo)) = true
               /\ finalOutcome (webhook w (posts st + i) (sheetRow taxInfo))
                  = {| sync_success := false;
                       sync_message :=
                         utf16 "Failed to parse response from Google Sheets" |}).
    { intros i. destruct (Hw (posts st + i) (sheetRow taxInfo)) as (r & -> & Hok & Hb).
      cbn [retryable finalOutcome]. rewrite Hok, Hb. split; reflexivity. }
    rewrite (sync_run w taxInfo Hurl 2 0 st); [| reflexivity | | left; reflexivity].
    + rewrite (proj2 (Hall 2)). reflexivity.
    + intros i _. apply Hall.
Qed.

Lemma sync_on_constant_failure_witness :
  appendTaxInfoToSheet Sample2.webhook_timing_out Sample.record 0 Sample.st0
  = (Ok {| sync_success := false;
           sync_message :=
             utf16 "Request timeout. Please check your connection and try again." |},
     {| file := file Sample.st0;
        trace := trace Sample.st0
                 ++ attemptEvents
                      (Post (GOOGLE_APPS_SCRIPT_URL Sample2.webhook_timing_out)
                         (sheetRow Sample.record)) 0 2 |})
  /\ appendTaxInfoToSheet Sample2.webhook_bad_certificate Sample.record 0 Sample.st0
     = (Ok {| sync_success := false;
              sync_message := or_else (Some (message Sample2.expired))
                                (utf16 "Unknown error occurred") |},
        {| file := file Sample.st0;
           trace := trace Sample.st0
                    ++ attemptEvents
                         (Post (GOOGLE_APPS_SCRIPT_URL Sample2.webhook_bad_certificate)
                            (sheetRow Sample.record)) 0 0 |})
  /\ appendTaxInfoToSheet Sample2.webhook_html Sample.record 0 Sample.st0
     = (Ok {| sync_success := false;
              sync_message := utf16 "Failed to parse response from Google Sheets" |},
        {| file := file Sample.st0;
           trace := trace Sample.st0
                    ++ attemptEvents
                         (Post (GOOGLE_APPS_SCRIPT_URL Sample2.webhook_html)
                            (sheetRow Sample.record)) 0 2 |}).
Proof.
  split; [| split].
  - apply (proj1 (proj1 (sync_on_constant_failure Sample2.webhook_timing_out
                           Sample.record Sample.st0 eq_refl)
                    Sample2.aborted (fun _ _ => eq_refl))).
    vm_compute. reflexivity.
  - apply (proj2 (proj2 (proj1 (sync_on_constant_failure Sample2.webhook_bad_certificate
                                  Sample.record Sample.st0 eq_refl)
                           Sample2.expired (fun _ _ => eq_refl))));
      vm_compute; reflexivity.
  - apply (proj2 (sync_on_constant_failure Sample2.webhook_html Sample.record
                    Sample.st0 eq_refl)).
    intros n row. eexists. repeat split.
Defined.

(** *** Persistence store *)

Lemma readTaxInfo_returns (w : World) (st : State) :
  exists r, readTaxInfo w st = (Ok r, st).
Proof.
  unfold readTaxInfo, try_catch, bind, ret, throw, fs_existsSync, fs_readFileSync,
    JSON_parse_file.
  destruct (truthy_opt (env_VERCEL w)); [eauto |].
  destruct (fs_read_error w) as [e |]; [eauto |].
  destruct (file st) as [[t0 |] |] eqn:Ef; cbn beta iota; try rewrite Ef;
    eexists; reflexivity.
Qed.

(** X4. [readTaxInfo] never throws and never changes anything; it returns
    a record exactly when the deployment is not the read-only target, the
    file can be read, and the file holds the JSON of that record. A
    missing file, an unreadable file and a file that is not JSON all give
    [null]. *)
Theorem readTaxInfo_spec :
  forall (w : World) (st : State),
    exists r,
      readTaxInfo w st = (Ok r, st)
      /\ forall t,
           r = Some t
           <-> truthy_opt (env_VERCEL w) = false
               /\ fs_read_error w = None
               /\ file st = Some (JsonOf t).
Proof.
  intros w st.
  unfold readTaxInfo, try_catch, bind, ret, throw, fs_existsSync, fs_readFileSync,
    JSON_parse_file.
  destruct (truthy_opt (env_VERCEL w)).
  - exists None. split; [reflexivity |].
    intros t. split; [discriminate | intros (H & _); discriminate].
  - destruct (fs_read_error w) as [e |].
    + exists None. split; [reflexivity |].
      intros t. split; [discriminate | intros (_ & H & _); discriminate].
    + destruct (file st) as [[t0 |] |] eqn:Ef; cbn beta iota; try rewrite Ef.
      * exists (Some t0). split; [reflexivity |].
        intros t. split.
        -- intros E. injection E as ->. auto.
        -- intros (_ & _ & E). injection E as ->. reflexivity.
      * exists None. split; [reflexivity |].
        intros t. split; [discriminate | intros (_ & _ & H); discriminate].
      * exists None. split; [reflexivity |].
        intros t. split; [discriminate | intros (_ & _ & H); discriminate].
Qed.

Lemma writeTaxInfo_stores (w : World) (taxInfo : TaxInfo) (st : State) :
  truthy_opt (env_VERCEL w) = false ->
  fs_write_error w = None ->
  writeTaxInfo w taxInfo st
  = (Ok true, {| file := Some (JsonOf taxInfo);
                 trace := trace st ++ [WriteFile taxInfo] |}).
Proof.
  intros Hv Hw. unfold writeTaxInfo, try_catch, bind, ret, fs_writeFileSync.
  rewrite Hv, Hw. reflexivity.
Qed.

Lemma readTaxInfo_reads (w : World) (taxInfo : TaxInfo) (st : State) :
  truthy_opt (env_VERCEL w) = false ->
  fs_read_error w = None ->
  file st = Some (JsonOf taxInfo) ->
  readTaxInfo w st = (Ok (Some taxInfo), st).
Proof.
  intros Hv Hr Hf.
  unfold readTaxInfo, try_catch, bind, ret, fs_existsSync, fs_readFileSync,
    JSON_parse_file.
  rewrite Hv, Hr, Hf. cbn beta iota. rewrite Hf. reflexivity.
Qed.

(** X5. On a local deployment whose file system works, what was saved is
    what is loaded, and of two saves the later one wins. *)
Theorem store_round_trip :
  forall (w : World) (first second : TaxInfo) (st : State),
    diskWorks w ->
    exists st1 st2,
      writeTaxInfo w first st = (Ok true, st1)
      /\ readTaxInfo w st1 = (Ok (Some first), st1)
      /\ writeTaxInfo w second st1 = (Ok true, st2)
      /\ readTaxInfo w st2 = (Ok (Some second), st2).
Proof.
  intros w first second st (Hv & Hw & Hr).
  eexists; eexists.
  split; [apply writeTaxInfo_stores; assumption |].
  split; [apply readTaxInfo_reads; auto |].
  split; [apply writeTaxInfo_stores; assumption |].
  apply readTaxInfo_reads; auto.
Qed.

Lemma store_round_trip_witness :
  exists st1 st2,
    writeTaxInfo Sample.offline Sample.record Sample.st0 = (Ok true, st1)
    /\ readTaxInfo Sample.offline st1 = (Ok (Some Sample.record), st1)
    /\ writeTaxInfo Sample.offline Sample.record st1 = (Ok true, st2)
    /\ readTaxInfo Sample.offline st2 = (Ok (Some Sample.record), st2).
Proof.
  apply (store_round_trip Sample.offline Sample.record Sample.record Sample.st0).
  repeat split.
Defined.

(** *** The store behind the fetch handler *)



(** X10. [GET /api/tax-info] always answers with status 200 and changes
    nothing, whatever the file system does: its 500 branch cannot be
    reached, since [readTaxInfo] swallows every error. *)
Theorem get_tax_info_always_200 :
  forall (w : World) (st : State),
    exists data, get_tax_info w st = (Ok (reply 200 (Stored data)), st).
Proof.
  intros w st. destruct (readTaxInfo_returns w st) as (r & Er).
  exists r. unfold get_tax_info, try_catch, bind, ret. rewrite Er. reflexivity.
Qed.

(** *** Address formatter: what it returns is stable *)

Lemma dropWhile_idem (p : codeunit -> bool) (s : jsstring) :
  dropWhile p (dropWhile p s) = dropWhile p s.
Proof.
  induction s as [| c r IH]; [reflexivity |].
  cbn [dropWhile]. destruct (p c) eqn:Ec; [exact IH |].
  cbn [dropWhile]. rewrite Ec. reflexivity.
Qed.

Lemma dropWhile_head (p : codeunit -> bool) (s : jsstring) :
  dropWhile p s = [] \/ exists c r, dropWhile p s = c :: r /\ p c = false.
Proof.
  induction s as [| c r IH]; [left; reflexivity |].
  cbn [dropWhile]. destruct (p c) eqn:Ec; [exact IH |].
  right. exists c, r. auto.
Qed.

Lemma dropWhile_app_last (p : codeunit -> bool) (c : codeunit) :
  p c = false -> forall l, exists v, dropWhile p (l ++ [c]) = v ++ [c].
Proof.
  intros Hc. induction l as [| x l IH].
  - exists []. cbn. rewrite Hc. reflexivity.
  - cbn [app dropWhile]. destruct (p x); [exact IH |].
    exists (x :: l). reflexivity.
Qed.

Lemma trimEnd_cons (c : codeunit) (u : jsstring) :
  isWhiteSpace c = false -> exists v, trimEnd (c :: u) = c :: v.
Proof.
  intros Hc. unfold trimEnd. cbn [rev].
  destruct (dropWhile_app_last isWhiteSpace c Hc (rev u)) as (v & ->).
  exists (rev v). rewrite rev_app_distr. reflexivity.
Qed.

Lemma trimEnd_app_last (x : jsstring) (c : codeunit) :
  isWhiteSpace c = false -> trimEnd (x ++ [c]) = x ++ [c].
Proof.
  intros Hc. unfold trimEnd. rewrite rev_app_distr. cbn [rev app dropWhile].
  rewrite Hc. cbn [rev]. rewrite rev_involutive. reflexivity.
Qed.

Lemma trim_head (s : jsstring) :
  trim s = [] \/ exists c v, trim s = c :: v /\ isWhiteSpace c = false.
Proof.
  unfold trim, trimStart.
  destruct (dropWhile_head isWhiteSpace s) as [-> | (c & r & -> & Hc)].
  - left. reflexivity.
  - right. destruct (trimEnd_cons c r Hc) as (v & ->). exists c, v. auto.
Qed.

Lemma trim_idem (s : jsstring) : trim (trim s) = trim s.
Proof.
  assert (Hstart : trimStart (trim s) = trim s).
  { destruct (trim_head s) as [-> | (c & v & -> & Hc)]; [reflexivity |].
    unfold trimStart. cbn [dropWhile]. rewrite Hc. reflexivity. }
  unfold trim at 1. rewrite Hstart.
  unfold trim, trimEnd. rewrite rev_involutive, dropWhile_idem. reflexivity.
Qed.

Lemma trim_with_suffix (s : jsstring) :
  trim s <> [] ->
  trim (trim s ++ utf16 ", Việt Nam") = trim s ++ utf16 ", Việt Nam".
Proof.
  intros Hne.
  destruct (trim_head s) as [E | (c & v & E & Hc)]; [contradiction |].
  rewrite E. unfold trim at 1, trimStart. cbn [app dropWhile]. rewrite Hc.
  change (utf16 ", Việt Nam") with (utf16 ", Việt Na" ++ [109%N]).
  change (c :: v ++ utf16 ", Việt Na" ++ [109%N])
    with ((c :: v) ++ utf16 ", Việt Na" ++ [109%N]).
  rewrite app_assoc. apply trimEnd_app_last. reflexivity.
Qed.

Lemma hasVietnam_with_suffix (t : jsstring) :
  hasVietnam (t ++ utf16 ", Việt Nam") = true.
Proof.
  apply hasVietnam_spec.
  exists t, (ch "," :: [32%N]), (utf16 "Việt" ++ [32%N] ++ utf16 "Nam"), [].
  split; [reflexivity |]. split; [| split].
  - apply sep_comma. reflexivity.
  - apply name_two_words; reflexivity.
  - reflexivity.
Qed.

Lemma formatAddress_formatted (a : jsstring) : formattedAddress (formatAddress a).
Proof.
  unfold formattedAddress, formatAddress.
  destruct (negb (truthy a) || eqb (trim a) []) eqn:Eblank.
  - split; [reflexivity | left; reflexivity].
  - assert (Hne : trim a <> []).
    { intros E. apply blank_address in E. rewrite E in Eblank. discriminate. }
    destruct (hasVietnam (trim a)) eqn:Ehas.
    + split; [apply trim_idem | right; exact Ehas].
    + split; [apply trim_with_suffix; exact Hne |].
      right. apply hasVietnam_with_suffix.
Qed.

Lemma formatAddress_fixed (a : jsstring) :
  formattedAddress a -> formatAddress a = a.
Proof.
  intros [Htrim Hshape]. unfold formatAddress. rewrite Htrim.
  destruct Hshape as [-> | Hhas]; [reflexivity |].
  destruct a as [| c r].
  - reflexivity.
  - cbn [truthy negb orb].
    destruct (eqb (c :: r) []) eqn:E; [apply eqb_eq in E; discriminate |].
    rewrite Hhas. reflexivity.
Qed.

(** X12. Formatting an address twice is formatting it once: what the
    formatter returns, it returns unchanged. *)
Theorem formatAddress_idempotent :
  forall (a : jsstring), formatAddress (formatAddress a) = formatAddress a.
Proof.
  intros a. apply formatAddress_fixed. apply formatAddress_formatted.
Qed.

(** X13. What the formatter returns has no whitespace at either end and
    is empty or ends with a country marker; it is empty exactly when the
    input is empty or blank. *)
Theorem formatAddress_result :
  forall (a : jsstring),
    trim (formatAddress a) = formatAddress a
    /\ (formatAddress a = [] <-> trim a = [])
    /\ (trim a <> [] -> hasVietnam (formatAddress a) = true).
Proof.
  intros a. destruct (formatAddress_formatted a) as [Htrim Hshape].
  split; [exact Htrim |].
  assert (Hempty : formatAddress a = [] <-> trim a = []).
  { unfold formatAddress.
    destruct (negb (truthy a) || eqb (trim a) []) eqn:Eblank.
    - apply blank_address in Eblank. split; auto.
    - assert (Hne : trim a <> []).
      { intros E. apply blank_address in E. rewrite E in Eblank. discriminate. }
      destruct (hasVietnam (trim a)).
      + split; [intros E; exact E | intros E; destruct (Hne E)].
      + split; [| intros E; destruct (Hne E)].
        intros E. apply app_eq_nil in E. destruct E as [E _]. exact E. }
  split; [exact Hempty |].
  intros Hne. destruct Hshape as [E | H]; [| exact H].
  apply Hempty in E. destruct (Hne E).
Qed.

Lemma formatAddress_result_witness :
  hasVietnam (formatAddress (utf16 "  12 Le Loi, Quan 1 ")) = true.
Proof.
  apply (proj2 (proj2 (formatAddress_result (utf16 "  12 Le Loi, Quan 1 ")))).
  vm_compute. discriminate.
Defined.

(** *** Lookup: priority order, effects, and the route *)

(** X14. When the configured custom API is in use and answers with a
    usable record, the lookup returns that record after this single GET:
    the public registry is not asked and the static table is not read. *)
Theorem lookup_custom_api_first :
  forall (w : World) (taxCode : jsstring) (st : State) (data : TaxApiData),
    test_anchored taxCodePattern taxCode = true ->
    customApiInUse w = true ->
    customSucceeds (customApi w (customUrl w taxCode)) = Some data ->
    lookupCompanyByTaxCode w taxCode st
    = (Ok (Found (companyOf data taxCode)), log (Get (customUrl w taxCode)) st).
Proof.
  intros w taxCode st data Hvalid Huse Hdata.
  pose proof (lookup_by_source w taxCode st Hvalid) as H.
  rewrite Huse, Hdata in H. exact H.
Qed.

Lemma lookup_custom_api_first_witness :
  lookupCompanyByTaxCode Sample2.with_custom_api (utf16 "0316794479") Sample.st0
  = (Ok (Found (companyOf Sample2.company (utf16 "0316794479"))),
     log (Get (customUrl Sample2.with_custom_api (utf16 "0316794479"))) Sample.st0).
Proof.
  apply (lookup_custom_api_first Sample2.with_custom_api (utf16 "0316794479")
           Sample.st0 Sample2.company);
    vm_compute; reflexivity.
Defined.

(** X15. When the custom API gives no record (it is not in use, or its
    answer is unusable) and the public registry answers with a record,
    the lookup returns the registry's record, also for a tax code the
    static table knows. *)
Theorem lookup_registry_before_table :
  forall (w : World) (taxCode : jsstring) (st : State) (d : VietQRData),
    test_anchored taxCodePattern taxCode = true ->
    (if customApiInUse w
     then customSucceeds (customApi w (customUrl w taxCode)) else None) = None ->
    registryAnswer (vietqr w (vietqrUrl taxCode)) = Some d ->
    lookupCompanyByTaxCode w taxCode st
    = (Ok (Found (registryRecord d taxCode)),
       log (Get (vietqrUrl taxCode)) (afterCustom w taxCode st)).
Proof.
  intros w taxCode st d Hvalid Hcustom Hreg.
  pose proof (lookup_by_source w taxCode st Hvalid) as H.
  rewrite Hcustom, Hreg in H. exact H.
Qed.

Lemma lookup_registry_before_table_witness :
  lookupCompanyByTaxCode Sample2.registry_up (utf16 "3901212654") Sample.st0
  = (Ok (Found (registryRecord Sample2.registry_entry (utf16 "3901212654"))),
     log (Get (vietqrUrl (utf16 "3901212654")))
       (afterCustom Sample2.registry_up (utf16 "3901212654") Sample.st0)).
Proof.
  apply (lookup_registry_before_table Sample2.registry_up (utf16 "3901212654")
           Sample.st0 Sample2.registry_entry);
    vm_compute; reflexivity.
Defined.

(** X16. In every world the lookup returns a result and never throws; it
    leaves the file alone and makes no call but GETs: none for a tax code
    that is not 10 to 13 digits (the result then being the format
    failure), otherwise one to the custom API, or one to the public
    registry, or one to each in that order. *)
Theorem lookup_effects_bounded :
  forall (w : World) (taxCode : jsstring) (st : State),
    exists r st',
      lookupCompanyByTaxCode w taxCode st = (Ok r, st')
      /\ file st' = file st
      /\ (if test_anchored taxCodePattern taxCode
          then trace st' = trace st ++ [Get (customUrl w taxCode)]
               \/ trace st' = trace st ++ [Get (vietqrUrl taxCode)]
               \/ trace st'
                  = trace st ++ [Get (customUrl w taxCode); Get (vietqrUrl taxCode)]
          else st' = st /\ r = NotFound (utf16 "Mã số thuế không hợp lệ")).
Proof.
  intros w taxCode st.
  destruct (test_anchored taxCodePattern taxCode) eqn:Hvalid.
  - pose proof (lookup_by_source w taxCode st Hvalid) as H.
    unfold afterCustom in H.
    destruct (customApiInUse w).
    + destruct (customSucceeds (customApi w (customUrl w taxCode))) as [data |].
      * rewrite H. eexists; eexists. split; [reflexivity |].
        split; [reflexivity |]. left. reflexivity.
      * rewrite H. eexists; eexists. split; [reflexivity |].
        split; [reflexivity |]. right; right.
        unfold log. cbn [trace]. rewrite <- app_assoc. reflexivity.
    + rewrite H. eexists; eexists. split; [reflexivity |].
      split; [reflexivity |]. right; left. reflexivity.
  - unfold lookupCompanyByTaxCode, try_catch, ret. rewrite Hvalid. cbn [negb].
    eexists; eexists. split; [reflexivity |]. split; [reflexivity |].
    split; reflexivity.
Qed.

(** X17. Every company record the lookup returns, from whichever source,
    carries an address as the formatter leaves it: no whitespace at
    either end, and empty or ending with a country marker. *)
Theorem lookup_address_formatted :
  forall (w : World) (taxCode : jsstring) (st st' : State) (data : CompanyLookupResult),
    lookupCompanyByTaxCode w taxCode st = (Ok (Found data), st') ->
    formattedAddress (c_address data).
Proof.
  intros w taxCode st st' data Hrun.
  destruct (test_anchored taxCodePattern taxCode) eqn:Hvalid.
  - pose proof (lookup_by_source w taxCode st Hvalid) as H.
    destruct (if customApiInUse w
              then customSucceeds (customApi w (customUrl w taxCode)) else None)
      as [cdata |].
    + rewrite H in Hrun. injection Hrun as <- _. apply formatAddress_formatted.
    + rewrite H in Hrun.
      destruct (registryAnswer (vietqr w (vietqrUrl taxCode))) as [d |].
      * injection Hrun as <- _. apply formatAddress_formatted.
      * destruct (property MOCK_TAX_DATA taxCode) as [m |]; [| discriminate].
        injection Hrun as <- _. apply formatAddress_formatted.
  - unfold lookupCompanyByTaxCode, try_catch, ret in Hrun.
    rewrite Hvalid in Hrun. cbn [negb] in Hrun. discriminate.
Qed.

Lemma lookup_address_formatted_witness :
  formattedAddress
    (c_address (registryRecord Sample2.registry_entry (utf16 "3901212654"))).
Proof.
  apply (lookup_address_formatted Sample2.registry_up (utf16 "3901212654") Sample.st0
           (log (Get (vietqrUrl (utf16 "3901212654"))) Sample.st0)).
  vm_compute. reflexivity.
Defined.

(** X18. For a well-formed tax code the lookup route relays the
    orchestrator: a record becomes status 200 with that record, a failure
    becomes status 200 with its message (a fixed text when the message is
    empty); when the 15-second timer fires first the answer is status 200
    with the timeout message. The calls made are the orchestrator's. *)
Theorem lookup_route_relays :
  forall (w : World) (taxCode : jsstring) (st : State),
    test_anchored taxCodePattern taxCode = true ->
    exists r st',
      lookupCompanyByTaxCode w taxCode st = (Ok r, st')
      /\ get_tax_lookup w taxCode st
         = (Ok (reply 200
                  (if lookup_exceeds_15s w
                   then Failure (utf16 "Lookup timeout after 15 seconds")
                   else match r with
                        | Found data => LookupData data
                        | NotFound msg =>
                            Failure (or_else (Some msg)
                              (utf16 "Không tìm thấy thông tin công ty từ các nguồn tra cứu"))
                        end)),
            st').
Proof.
  intros w taxCode st Hvalid.
  assert (Hrun : exists r st', lookupCompanyByTaxCode w taxCode st = (Ok r, st')).
  { pose proof (lookup_by_source w taxCode st Hvalid) as H.
    destruct (if customApiInUse w
              then customSucceeds (customApi w (customUrl w taxCode)) else None);
      rewrite H; eauto. }
  destruct Hrun as (r & st' & Erun). exists r, st'. split; [exact Erun |].
  assert (Htruthy : truthy taxCode = true).
  { destruct taxCode; [discriminate Hvalid | reflexivity]. }
  unfold get_tax_lookup, race_15s. unfold try_catch, bind, ret, throw.
  rewrite Htruthy, Hvalid. cbn [negb orb]. rewrite Erun.
  destruct (lookup_exceeds_15s w).
  - assert (Ht : truthy (utf16 "Lookup timeout after 15 seconds") = true)
      by (vm_compute; reflexivity).
    unfold or_else, Error. cbn [message]. rewrite Ht. reflexivity.
  - destruct r as [data | msg]; reflexivity.
Qed.

Lemma lookup_route_relays_witness :
  exists r st',
    lookupCompanyByTaxCode Sample2.registry_up (utf16 "3901212654") Sample.st0
    = (Ok r, st')
    /\ get_tax_lookup Sample2.registry_up (utf16 "3901212654") Sample.st0
       = (Ok (reply 200
                (if lookup_exceeds_15s Sample2.registry_up
                 then Failure (utf16 "Lookup timeout after 15 seconds")
                 else match r with
                      | Found data => LookupData data
                      | NotFound msg =>
                          Failure (or_else (Some msg)
                            (utf16 "Không tìm thấy thông tin công ty từ các nguồn tra cứu"))
                      end)),
          st').
Proof.
  apply (lookup_route_relays Sample2.registry_up (utf16 "3901212654") Sample.st0).
  vm_compute. reflexivity.
Defined.

(** *** Phone normalizer: applying it again changes nothing *)

Lemma plus84_unfold (c : codeunit) (r : jsstring) :
  replaceAll (utf16 "+84") (utf16 "0") (c :: r)
  = if startsWith (utf16 "+84") (c :: r)
    then 48%N :: replaceAll_from (utf16 "+84") (utf16 "0") r 2
    else c :: replaceAll (utf16 "+84") (utf16 "0") r.
Proof.
  unfold replaceAll. cbn [replaceAll_from].
  destruct (startsWith (utf16 "+84") (c :: r)); reflexivity.
Qed.

Lemma replaceAll_from_skip (lit rep : jsstring) :
  forall s k, replaceAll_from lit rep s k = replaceAll_from lit rep (skipn k s) 0.
Proof.
  induction s as [| c r IH]; intros k.
  - destruct k; reflexivity.
  - destruct k as [| k]; [reflexivity |].
    cbn [replaceAll_from skipn]. apply IH.
Qed.

Lemma includes_cons (p : jsstring) (c : codeunit) (r : jsstring) :
  includes p (c :: r) = startsWith p (c :: r) || includes p r.
Proof. reflexivity. Qed.

Lemma includes_skipn (p : jsstring) :
  forall k s, includes p s = false -> includes p (skipn k s) = false.
Proof.
  induction k as [| k IH]; intros s H; [exact H |].
  destruct s as [| c r]; [exact H |].
  rewrite includes_cons in H. apply orb_false_elim in H. destruct H as [_ H].
  cbn [skipn]. apply IH. exact H.
Qed.

(** A text without the literal is left as it is. *)
Lemma replaceAll_absent (lit rep : jsstring) :
  forall s, includes lit s = false -> replaceAll lit rep s = s.
Proof.
  unfold replaceAll. induction s as [| c r IH]; intros H; [reflexivity |].
  rewrite includes_cons in H. apply orb_false_elim in H. destruct H as [Hs Hr].
  cbn [replaceAll_from]. rewrite Hs, (IH Hr). reflexivity.
Qed.

Lemma plus84_starts_4 (r : jsstring) :
  startsWith [52%N] (replaceAll (utf16 "+84") (utf16 "0") r) = true ->
  startsWith [52%N] r = true.
Proof.
  destruct r as [| y r']; [intros H; exact H |].
  rewrite plus84_unfold. destruct (startsWith (utf16 "+84") (y :: r')).
  - intros H. discriminate H.
  - intros H. exact H.
Qed.

Lemma plus84_starts_84 (r : jsstring) :
  startsWith [56%N; 52%N] (replaceAll (utf16 "+84") (utf16 "0") r) = true ->
  startsWith [56%N; 52%N] r = true.
Proof.
  destruct r as [| x r']; [intros H; exact H |].
  rewrite plus84_unfold. destruct (startsWith (utf16 "+84") (x :: r')).
  - intros H. discriminate H.
  - cbn [startsWith]. intros H. apply andb_prop in H. destruct H as [Hx H4].
    rewrite Hx. cbn [andb]. apply plus84_starts_4 in H4. exact H4.
Qed.

(** After the replacement no "+84" is left. *)
Lemma plus84_gone :
  forall n s, List.length s <= n ->
    includes (utf16 "+84") (replaceAll (utf16 "+84") (utf16 "0") s) = false.
Proof.
  induction n as [| n IH]; intros s Hn.
  - destruct s; [reflexivity | cbn in Hn; lia].
  - destruct s as [| c r]; [reflexivity |].
    cbn [List.length] in Hn.
    rewrite plus84_unfold.
    destruct (startsWith (utf16 "+84") (c :: r)) eqn:Es.
    + rewrite replaceAll_from_skip. rewrite includes_cons.
      change (startsWith (utf16 "+84") (48%N :: ?x)) with false.
      cbn [orb]. apply (IH (skipn 2 r)).
      rewrite length_skipn. lia.
    + rewrite includes_cons.
      rewrite (IH r ltac:(lia)), orb_false_r.
      destruct (startsWith (utf16 "+84")
                  (c :: replaceAll (utf16 "+84") (utf16 "0") r)) eqn:Eo;
        [| reflexivity].
      change (utf16 "+84") with [43%N; 56%N; 52%N] in Eo, Es.
      cbn [startsWith] in Eo, Es.
      apply andb_prop in Eo. destruct Eo as [Hc H84].
      rewrite Hc in Es. cbn [andb] in Es.
      apply plus84_starts_84 in H84. cbn [startsWith] in H84.
      rewrite H84 in Es. discriminate Es.
Qed.

Lemma filter_fixed (p : codeunit -> bool) (s : jsstring) :
  forallb p s = true -> filter p s = s.
Proof.
  induction s as [| c r IH]; intros H; [reflexivity |].
  cbn [forallb] in H. apply andb_prop in H. destruct H as [Hc Hr].
  cbn [filter]. rewrite Hc, (IH Hr). reflexivity.
Qed.

Lemma normalizePhone_no_separator (phone : jsstring) :
  forallb (fun c => negb (isPhoneSeparator c)) (normalizePhone phone) = true.
Proof.
  unfold normalizePhone. rewrite withoutSeparators_steps.
  apply replacePrefix_forallb; [reflexivity |].
  apply replaceAll_from_forallb; [reflexivity |].
  apply filter_forallb.
Qed.

(** A text the normalizer has nothing to do on. *)
Lemma normalizePhone_fixed (z : jsstring) :
  forallb (fun c => negb (isPhoneSeparator c)) z = true ->
  includes (utf16 "+84") z = false ->
  startsWith (utf16 "84") z = false ->
  normalizePhone z = z.
Proof.
  intros Hsep Hplus H84. unfold normalizePhone.
  rewrite withoutSeparators_steps. unfold withoutSeparators.
  rewrite (filter_fixed _ z Hsep).
  rewrite (replaceAll_absent (utf16 "+84") (utf16 "0") z Hplus).
  unfold replacePrefix. rewrite H84. reflexivity.
Qed.

Lemma normalizePhone_settled (phone : jsstring) :
  includes (utf16 "+84") (normalizePhone phone) = false
  /\ startsWith (utf16 "84") (normalizePhone phone) = false.
Proof.
  unfold normalizePhone.
  set (y := replaceAll (utf16 "+84") (utf16 "0")
              (replaceAll (utf16 "-") [] (removeWhiteSpace phone))).
  assert (Hy : includes (utf16 "+84") y = false)
    by (apply (plus84_gone (List.length (replaceAll (utf16 "-") []
                                           (removeWhiteSpace phone)))); lia).
  unfold replacePrefix.
  destruct (startsWith (utf16 "84") y) eqn:E84.
  - change (utf16 "0" ++ skipn (List.length (utf16 "84")) y)
      with (48%N :: skipn 2 y).
    split; [| reflexivity].
    rewrite includes_cons.
    change (startsWith (utf16 "+84") (48%N :: skipn 2 y)) with false.
    cbn [orb]. apply includes_skipn. exact Hy.
  - split; [exact Hy | exact E84].
Qed.

(** X19. Normalizing a phone twice is normalizing it once. The form
    normalizes the phone before it sends it and the server normalizes
    what it receives, so the server stores what the form sent. *)
Theorem normalizePhone_idempotent :
  forall (phone : jsstring),
    normalizePhone (normalizePhone phone) = normalizePhone phone.
Proof.
  intros phone. destruct (normalizePhone_settled phone) as [Hplus H84].
  apply normalizePhone_fixed.
  - apply normalizePhone_no_separator.
  - exact Hplus.
  - exact H84.
Qed.

(** *** The checks on tax code, phone and e-mail *)

(** X21. The tax-code check accepts exactly the strings of 10 to 13
    decimal digits, and the phone check exactly the strings of 10 or 11
    decimal digits: no sign, no space, no other character, and no digit
    outside 0-9. *)
Theorem digit_checks_spec :
  forall (s : jsstring),
    (test_anchored taxCodePattern s = true
     <-> 10 <= List.length s <= 13 /\ forallb isDigit s = true)
    /\ (test_anchored phonePattern s = true
        <-> 10 <= List.length s <= 11 /\ forallb isDigit s = true).
Proof.
  intros s. split; apply between_chr_spec; lia.
Qed.

Lemma lang_plus_chr_all (p : codeunit -> bool) (s : jsstring) :
  lang (Plus (Chr p)) s <-> s <> [] /\ forallb p s = true.
Proof.
  rewrite lang_plus_chr. split.
  - intros (c & gap & -> & Hc & Hg). split; [discriminate |].
    cbn. rewrite Hc, Hg. reflexivity.
  - intros [Hne Hall]. destruct s as [| c gap]; [contradiction |].
    cbn in Hall. apply andb_prop in Hall. destruct Hall as [Hc Hg].
    exists c, gap. auto.
Qed.

Lemma lang_atleast_chr (p : codeunit -> bool) (m : nat) (s : jsstring) :
  lang (AtLeast m (Chr p)) s <-> m <= List.length s /\ forallb p s = true.
Proof.
  unfold AtLeast. split.
  - intros H. apply lang_cat_inv in H. destruct H as (s1 & s2 & -> & H1 & H2).
    apply lang_times_chr in H1. destruct H1 as [L1 A1].
    apply lang_star_chr in H2.
    rewrite length_app, forallb_app, A1, H2. split; [lia | reflexivity].
  - intros [Hlen Hall].
    rewrite <- (firstn_skipn m s) in Hall |- *.
    rewrite forallb_app in Hall. apply andb_prop in Hall. destruct Hall as [A1 A2].
    constructor.
    + apply lang_times_chr. split; [| exact A1]. rewrite length_firstn. lia.
    + apply lang_star_chr. exact A2.
Qed.

(** X22. The e-mail check accepts exactly the strings made of a non-empty
    local part of letters, digits and [._%+-], an "@", a non-empty domain
    of letters, digits, dots and hyphens, a dot, and a final label of at
    least two letters. *)
Theorem email_check_spec :
  forall (s : jsstring), test_anchored emailRegex s = true <-> emailShape s.
Proof.
  intros s. unfold test_anchored, emailRegex, emailShape.
  rewrite matches_lang. cbn [Seq].
  change (utf16 "@") with [ch "@"]. change (utf16 ".") with [ch "."].
  split.
  - intros H.
    apply lang_cat_inv in H. destruct H as (loc & t1 & -> & Hloc & H).
    apply lang_cat_inv in H. destruct H as (at_ & t2 & -> & Hat & H).
    apply lang_cat_inv in H. destruct H as (dom & t3 & -> & Hdom & H).
    apply lang_cat_inv in H. destruct H as (dot & t4 & -> & Hdot & H).
    apply lang_cat_inv in H. destruct H as (tld & e & -> & Htld & He).
    apply lang_eps_inv in He. subst e. rewrite app_nil_r.
    apply lang_plus_chr_all in Hloc. destruct Hloc as [Hloc1 Hloc2].
    apply lang_plus_chr_all in Hdom. destruct Hdom as [Hdom1 Hdom2].
    apply lang_chr_inv in Hat. destruct Hat as (c1 & -> & Hc1).
    apply N.eqb_eq in Hc1. subst c1.
    apply lang_chr_inv in Hdot. destruct Hdot as (c2 & -> & Hc2).
    apply N.eqb_eq in Hc2. subst c2.
    apply lang_atleast_chr in Htld. destruct Htld as [Htld1 Htld2].
    exists loc, dom, tld. repeat split; assumption.
  - intros (loc & dom & tld & -> & Hloc1 & Hloc2 & Hdom1 & Hdom2 & Htld1 & Htld2).
    constructor; [apply lang_plus_chr_all; split; assumption |].
    constructor; [constructor; apply N.eqb_refl |].
    constructor; [apply lang_plus_chr_all; split; assumption |].
    constructor; [constructor; apply N.eqb_refl |].
    rewrite <- (app_nil_r tld).
    constructor; [apply lang_atleast_chr; split; assumption | constructor].
Qed.

(** *** The parse route *)

Lemma or_empty_truthy (v : Routes.JsValue) :
  Routes.truthyValue v = true -> Routes.or_empty v = v.
Proof. unfold Routes.or_empty. intros ->. reflexivity. Qed.

Lemma or_empty_valueOf (o : option jsstring) :
  Routes.or_empty (Routes.valueOf o) = Routes.JString (or_else o []).
Proof.
  destruct o as [s |]; [| reflexivity].
  unfold Routes.or_empty. cbn [Routes.valueOf Routes.truthyValue or_else].
  destruct (truthy s); reflexivity.
Qed.

(** X23. [POST /api/tax-lookup/parse] touches nothing, and answers by the
    payload alone. With [MaSoThue] or [Title] falsy the answer is status
    400. With both truthy, the answer is status 200 and the values of the
    payload, the address formatted, unless [DiaChiCongTy] is a truthy
    value that is not a string: the formatter then throws, and the answer
    is status 500. On a payload of strings the record is the one the
    lookup's custom-API step builds from it, whatever tax code was asked
    for. *)
Theorem parse_route_spec :
  (forall (body : Routes.ApiResponse) (st : State),
     (Routes.truthyValue (Routes.body_MaSoThue body)
      && Routes.truthyValue (Routes.body_Title body) = false ->
      Routes.post_tax_lookup_parse body st
      = (Ok {| Routes.parse_status := 400;
               Routes.parse_body := Routes.Refused Routes.cannotParseMessage |}, st))
     /\ (Routes.truthyValue (Routes.body_MaSoThue body)
         && Routes.truthyValue (Routes.body_Title body) = true ->
         (forall json,
            Routes.body_DiaChiCongTy body = Routes.JTruthy json ->
            exists msg,
              Routes.post_tax_lookup_parse body st
              = (Ok {| Routes.parse_status := 500;
                       Routes.parse_body :=
                         Routes.Refused (utf16 "Lỗi khi parse response: " ++ msg) |}, st))
         /\ ((forall json, Routes.body_DiaChiCongTy body <> Routes.JTruthy json) ->
             Routes.post_tax_lookup_parse body st
             = (Ok {| Routes.parse_status := 200;
                      Routes.parse_body :=
                        Routes.Parsed
                          {| Routes.p_taxCode := Routes.body_MaSoThue body;
                             Routes.p_companyName := Routes.body_Title body;
                             Routes.p_companyNameEn :=
                               Routes.or_empty (Routes.body_TitleEn body);
                             Routes.p_shortName :=
                               Routes.or_empty (Routes.body_TitleEnAscii body);
                             Routes.p_address :=
                               match Routes.body_DiaChiCongTy body with
                               | Routes.JString s => formatAddress s
                               | _ => []
                               end |} |}, st))))
  /\ (forall (data : TaxApiData) (taxCode : jsstring) (st : State),
        truthy_opt (MaSoThue data) && truthy_opt (Title data) = true ->
        Routes.post_tax_lookup_parse (Routes.ofStrings data) st
        = (Ok {| Routes.parse_status := 200;
                 Routes.parse_body :=
                   Routes.Parsed (Routes.asValues (companyOf data taxCode)) |}, st)).
Proof.
  split.
  - intros body st. split; [| intros Hboth; split].
    + intros Hnot.
      unfold Routes.post_tax_lookup_parse, Routes.parseTaxApiResponse, try_catch, ret.
      rewrite Hnot. reflexivity.
    + intros json Haddr.
      unfold Routes.post_tax_lookup_parse, Routes.parseTaxApiResponse, try_catch, ret,
        throw.
      rewrite Hboth, Haddr. eexists. reflexivity.
    + intros Haddr. apply andb_prop in Hboth. destruct Hboth as [Hm Ht].
      unfold Routes.post_tax_lookup_parse, Routes.parseTaxApiResponse, try_catch, ret.
      rewrite Hm, Ht. cbn [andb]. rewrite (or_empty_truthy _ Ht).
      destruct (Routes.body_DiaChiCongTy body) as [s | json | json].
      * unfold Routes.or_empty. cbn [Routes.truthyValue].
        destruct s as [| c s']; reflexivity.
      * reflexivity.
      * exfalso. apply (Haddr json). reflexivity.
  - intros data taxCode st Hboth.
    apply andb_prop in Hboth. destruct Hboth as [Hm Ht].
    unfold Routes.post_tax_lookup_parse, Routes.parseTaxApiResponse, try_catch, ret.
    unfold Routes.ofStrings.
    cbn [Routes.body_MaSoThue Routes.body_Title Routes.body_TitleEn
         Routes.body_TitleEnAscii Routes.body_DiaChiCongTy].
    rewrite !or_empty_valueOf.
    unfold Routes.asValues, companyOf.
    cbn [c_taxCode c_companyName c_companyNameEn c_shortName c_address].
    destruct (MaSoThue data) as [m |]; [| discriminate Hm].
    destruct (Title data) as [t |]; [| discriminate Ht].
    cbn [truthy_opt] in Hm, Ht.
    cbn [Routes.valueOf Routes.truthyValue Routes.formatAddressOf or_else].
    rewrite Hm, Ht. reflexivity.
Qed.

Lemma parse_route_spec_witness :
  (exists msg,
     Routes.post_tax_lookup_parse Sample2.numeric_address Sample.st0
     = (Ok {| Routes.parse_status := 500;
              Routes.parse_body :=
                Routes.Refused (utf16 "Lỗi khi parse response: " ++ msg) |}, Sample.st0))
  /\ Routes.post_tax_lookup_parse (Routes.ofStrings Sample2.company) Sample.st0
     = (Ok {| Routes.parse_status := 200;
              Routes.parse_body :=
                Routes.Parsed
                  (Routes.asValues (companyOf Sample2.company (utf16 "9999999999"))) |},
        Sample.st0).
Proof.
  split.
  - apply (proj1 (proj2 (proj1 parse_route_spec Sample2.numeric_address Sample.st0)
                    eq_refl) (utf16 "12")).
    reflexivity.
  - apply (proj2 parse_route_spec Sample2.company (utf16 "9999999999") Sample.st0).
    reflexivity.
Defined.

(** *** The spreadsheet webhook *)

Lemma ensureHeader_spec (sheet : AppsScript.Sheet) :
  AppsScript.ensureHeader sheet
  = if eqb (AppsScript.firstRowValue sheet) (utf16 "Thời gian")
    then sheet else AppsScript.headerRow :: sheet.
Proof.
  unfold AppsScript.ensureHeader.
  destruct sheet as [| row1 rest].
  - reflexivity.
  - cbn [List.length Nat.eqb Nat.ltb Nat.leb orb andb].
    destruct (eqb (AppsScript.firstRowValue (row1 :: rest)) (utf16 "Thời gian"));
      cbn [negb].
    + reflexivity.
    + unfold AppsScript.setHeaderValues, AppsScript.insertRowBefore1.
      cbn [skipn]. rewrite app_nil_r. reflexivity.
Qed.

(** X24. [doPost] never overwrites or reorders the rows of the first
    sheet, and leaves the other sheets alone: whatever the body, the first
    sheet afterwards is the old one with at most the header row on top
    and at most one row below. On a body that parses to an object the
    answer is success, the header is put on top only when the first cell
    is not the header's, and the new row goes last. On the body [null]
    the answer is failure, but the header stays where it was put. When
    the body does not parse, or there is no sheet, the answer is failure
    with the error's text and the spreadsheet is as it was. *)
Theorem doPost_appends_below_header :
  forall (timestamp : jsstring) (sheet : AppsScript.Sheet)
         (others : AppsScript.Spreadsheet),
    (forall data,
       AppsScript.doPost timestamp (Ok (Some data)) (sheet :: others)
       = ({| AppsScript.r_success := true;
             AppsScript.r_message :=
               utf16 "Đã ghi dữ liệu vào Google Sheet thành công" |},
          ((if eqb (AppsScript.firstRowValue sheet) (utf16 "Thời gian")
            then sheet else AppsScript.headerRow :: sheet)
           ++ [AppsScript.rowData timestamp data]) :: others))
    /\ AppsScript.doPost timestamp (Ok None) (sheet :: others)
       = ({| AppsScript.r_success := false;
             AppsScript.r_message :=
               utf16 "Lỗi: " ++ AppsScript.toString AppsScript.nullPropertyError |},
          (if eqb (AppsScript.firstRowValue sheet) (utf16 "Thời gian")
           then sheet else AppsScript.headerRow :: sheet) :: others)
    /\ (forall e spreadsheet,
          AppsScript.doPost timestamp (Throw e) spreadsheet
          = ({| AppsScript.r_success := false;
                AppsScript.r_message := utf16 "Lỗi: " ++ AppsScript.toString e |},
             spreadsheet))
    /\ (forall data,
          AppsScript.r_success (fst (AppsScript.doPost timestamp (Ok data) [])) = false
          /\ snd (AppsScript.doPost timestamp (Ok data) []) = [])
    /\ (forall contents,
          exists above below,
            snd (AppsScript.doPost timestamp contents (sheet :: others))
            = (above ++ sheet ++ below) :: others
            /\ (above = [] \/ above = [AppsScript.headerRow])
            /\ List.length below <= 1).
Proof.
  intros timestamp sheet others.
  split; [| split; [| split; [| split]]].
  - intros data. unfold AppsScript.doPost. rewrite ensureHeader_spec. reflexivity.
  - unfold AppsScript.doPost. rewrite ensureHeader_spec. reflexivity.
  - intros e spreadsheet. reflexivity.
  - intros data. split; reflexivity.
  - intros [[data |] | e]; unfold AppsScript.doPost; cbn [snd];
      try rewrite ensureHeader_spec.
    + destruct (eqb (AppsScript.firstRowValue sheet) (utf16 "Thời gian")).
      * exists [], [AppsScript.rowData timestamp data].
        split; [reflexivity |]. split; [left; reflexivity | cbn; lia].
      * exists [AppsScript.headerRow], [AppsScript.rowData timestamp data].
        split; [reflexivity |]. split; [right; reflexivity | cbn; lia].
    + destruct (eqb (AppsScript.firstRowValue sheet) (utf16 "Thời gian")).
      * exists [], []. rewrite app_nil_r.
        split; [reflexivity |]. split; [left; reflexivity | cbn; lia].
      * exists [AppsScript.headerRow], []. rewrite app_nil_r.
        split; [reflexivity |]. split; [right; reflexivity | cbn; lia].
    + exists [], []. rewrite app_nil_r.
      split; [reflexivity |]. split; [left; reflexivity | cbn; lia].
Qed.

Lemma firstRowValue_app (sheet : AppsScript.Sheet) (row : AppsScript.Row) :
  AppsScript.firstRowValue sheet <> [] ->
  AppsScript.firstRowValue (sheet ++ [row]) = AppsScript.firstRowValue sheet.
Proof.
  destruct sheet as [| [| cell cells] rest]; cbn; intros H;
    [contradiction | contradiction | reflexivity].
Qed.

(** X25. The header is created at most once: after one successful
    [doPost] the first sheet starts with the header, so a second one adds
    exactly its own row after the first one's, and nothing else. *)
Theorem doPost_header_once :
  forall (t1 t2 : jsstring) (d1 d2 : AppsScript.PostData)
         (sheet : AppsScript.Sheet) (others : AppsScript.Spreadsheet),
    exists sheet1,
      snd (AppsScript.doPost t1 (Ok (Some d1)) (sheet :: others)) = sheet1 :: others
      /\ AppsScript.firstRowValue sheet1 = utf16 "Thời gian"
      /\ snd (AppsScript.doPost t2 (Ok (Some d2)) (sheet1 :: others))
         = (sheet1 ++ [AppsScript.rowData t2 d2]) :: others
      /\ List.length sheet1
         = List.length sheet + 1
           + (if eqb (AppsScript.firstRowValue sheet) (utf16 "Thời gian") then 0 else 1).
Proof.
  intros t1 t2 d1 d2 sheet others.
  set (sheet1 := (if eqb (AppsScript.firstRowValue sheet) (utf16 "Thời gian")
                  then sheet else AppsScript.headerRow :: sheet)
                 ++ [AppsScript.rowData t1 d1]).
  assert (Hfirst : AppsScript.firstRowValue sheet1 = utf16 "Thời gian").
  { unfold sheet1.
    destruct (eqb (AppsScript.firstRowValue sheet) (utf16 "Thời gian")) eqn:E.
    - apply eqb_eq in E. rewrite firstRowValue_app; [exact E |].
      rewrite E. discriminate.
    - reflexivity. }
  exists sheet1. split; [| split; [| split]].
  - unfold AppsScript.doPost. rewrite ensureHeader_spec. reflexivity.
  - exact Hfirst.
  - unfold AppsScript.doPost. rewrite ensureHeader_spec. cbn [snd].
    rewrite Hfirst, eqb_refl. reflexivity.
  - unfold sheet1. rewrite length_app. cbn [List.length].
    destruct (eqb (AppsScript.firstRowValue sheet) (utf16 "Thời gian"));
      cbn [List.length]; lia.
Qed.

Lemma or_else_some_nil (s : jsstring) : or_else (Some s) [] = s.
Proof. destruct s; reflexivity. Qed.

(** X26. The server against this script: when the webhook's answer to the
    first POST is status 200 with what [doPost] answers for the posted
    row on a spreadsheet that has a sheet, the sync succeeds after that
    single POST, and the row the script appended is the timestamp
    followed by the record's invoice number, tax code, company name,
    address, e-mail and phone. *)
Theorem sync_against_script :
  forall (w : World) (taxInfo : TaxInfo) (st : State) (timestamp text : jsstring)
         (sheet : AppsScript.Sheet) (others : AppsScript.Spreadsheet),
    truthy (GOOGLE_APPS_SCRIPT_URL w) = true ->
    webhook w (posts st) (sheetRow taxInfo)
    = Responded
        {| status := 200; statusText := text;
           body := AppsScript.asWebhookBody
                     (fst (AppsScript.doPost timestamp
                             (Ok (Some (AppsScript.posted (sheetRow taxInfo))))
                             (sheet :: others))) |} ->
    appendTaxInfoToSheet w taxInfo 0 st
    = (Ok {| sync_success := true; sync_message := utf16 "Data saved to Google Sheets" |},
       log (Post (GOOGLE_APPS_SCRIPT_URL w) (sheetRow taxInfo)) st)
    /\ exists above,
         snd (AppsScript.doPost timestamp (Ok (Some (AppsScript.posted (sheetRow taxInfo))))
                (sheet :: others))
         = (above
            ++ [[timestamp; invoiceNumber taxInfo; taxCode taxInfo; companyName taxInfo;
                 address taxInfo; email taxInfo; phone taxInfo]]) :: others.
Proof.
  intros w taxInfo st timestamp text sheet others Hurl Hw. split.
  - rewrite (sync_attempt_spec w taxInfo 0 st Hurl). rewrite Hw. reflexivity.
  - eexists. unfold AppsScript.doPost. cbn [snd].
    unfold AppsScript.rowData, AppsScript.posted, sheetRow.
    cbn [AppsScript.pd_invoiceNumber AppsScript.pd_taxCode AppsScript.pd_companyName
         AppsScript.pd_address AppsScript.pd_email AppsScript.pd_phone
         row_invoiceNumber row_taxCode row_companyName row_address row_email row_phone].
    repeat rewrite or_else_some_nil. reflexivity.
Qed.

Lemma sync_against_script_witness :
  appendTaxInfoToSheet Sample2.webhook_script Sample.record 0 Sample.st0
  = (Ok {| sync_success := true; sync_message := utf16 "Data saved to Google Sheets" |},
     log (Post (GOOGLE_APPS_SCRIPT_URL Sample2.webhook_script) (sheetRow Sample.record))
       Sample.st0)
  /\ exists above,
       snd (AppsScript.doPost Sample2.noon
              (Ok (Some (AppsScript.posted (sheetRow Sample.record))))
              (Sample2.sheet_with_data :: []))
       = (above
          ++ [[Sample2.noon; invoiceNumber Sample.record;
               taxCode Sample.record; companyName Sample.record;
               address Sample.record; email Sample.record; phone Sample.record]]) :: [].
Proof.
  apply (sync_against_script Sample2.webhook_script Sample.record Sample.st0
           Sample2.noon (utf16 "OK") Sample2.sheet_with_data []).
  - vm_compute. reflexivity.
  - vm_compute. reflexivity.
Defined.
